(** * ipsc_t2t / imprinting: alignment and liftover drivers

    A shallow embedding of the two command-line programs

      - [src/imprinting/1_run_batch_alignment.py]  (program 1, module [Align])
      - [src/imprinting/2_paf_liftover.py]         (program 2, module [Liftover])

    together with the parts of the Python runtime they rely on: [str]
    methods, text-mode file iteration, a flat file system, [subprocess.run]
    and the exceptions the programs catch. *)

From Stdlib Require Import ZArith NArith String Ascii List Lia.
From stdpp Require Import base option list gmap.

Open Scope N_scope.

(** ** Python [str]

    A Python string is a sequence of Unicode code points.  A code point is
    an [N]; [py] turns an ASCII literal of this file into such a string. *)

Abbreviation char := N (only parsing).
Abbreviation str := (list N) (only parsing).

Definition py (s : string) : str :=
  map N_of_ascii (list_ascii_of_string s).

Definition TAB : char := 9.
Definition LF : char := 10.
Definition CR : char := 13.
Definition DOT : char := 46.
Definition SLASH : char := 47.
Definition DQUOTE : char := 34.

Module Str.

(** [str.isspace] on one code point: the table of
    [_PyUnicode_IsWhitespace]. *)
Definition isspace (c : char) : bool :=
  ((9 <=? c) && (c <=? 13))
  || ((28 <=? c) && (c <=? 32))
  || (c =? 133) || (c =? 160) || (c =? 5760)
  || ((8192 <=? c) && (c <=? 8202))
  || (c =? 8232) || (c =? 8233) || (c =? 8239) || (c =? 8287)
  || (c =? 12288).

Fixpoint lstrip (s : str) : str :=
  match s with
  | c :: s' => if isspace c then lstrip s' else s
  | [] => []
  end.

Definition rstrip (s : str) : str := rev (lstrip (rev s)).

(** [s.strip()] with no argument. *)
Definition strip (s : str) : str := rstrip (lstrip s).

(** Truth value of a string: non-empty. *)
Definition truthy (s : str) : bool :=
  match s with [] => false | _ :: _ => true end.

(** [s.startswith(p)] *)
Fixpoint startswith (s p : str) : bool :=
  match p, s with
  | [], _ => true
  | _ :: _, [] => false
  | a :: p', c :: s' => (c =? a) && startswith s' p'
  end.

(** [s.endswith(p)] *)
Definition endswith (s p : str) : bool := startswith (rev s) (rev p).

(** [s.split(sep)] for a separator of one character.  The result has one
    more field than [s] has separators; [''.split(sep)] is [['']]. *)
Fixpoint split (sep : char) (s : str) : list str :=
  match s with
  | [] => [[]]
  | c :: s' =>
      if c =? sep then [] :: split sep s'
      else match split sep s' with
           | f :: fs => (c :: f) :: fs
           | [] => [[c]]
           end
  end.

(** [s.replace(old, new)] for a non-empty [old]: scan from the left; at a
    position where [old] starts, emit [new] and jump over [old];
    elsewhere copy one character.  [skip] counts the characters of a
    matched [old] still to jump over. *)
Fixpoint replace_from (old new : str) (skip : nat) (s : str) : str :=
  match s with
  | [] => []
  | c :: s' =>
      match skip with
      | S k => replace_from old new k s'
      | O =>
          if startswith s old
          then new ++ replace_from old new (length old - 1) s'
          else c :: replace_from old new 0 s'
      end
  end.

Definition replace (s old new : str) : str := replace_from old new 0 s.

(** [sep.join(parts)] *)
Fixpoint join (sep : str) (parts : list str) : str :=
  match parts with
  | [] => []
  | [p] => p
  | p :: ps => p ++ sep ++ join sep ps
  end.

(** [str(n)] for an integer. *)
Fixpoint digits_of_uint (d : Decimal.uint) : str :=
  match d with
  | Decimal.Nil => []
  | Decimal.D0 d => 48 :: digits_of_uint d
  | Decimal.D1 d => 49 :: digits_of_uint d
  | Decimal.D2 d => 50 :: digits_of_uint d
  | Decimal.D3 d => 51 :: digits_of_uint d
  | Decimal.D4 d => 52 :: digits_of_uint d
  | Decimal.D5 d => 53 :: digits_of_uint d
  | Decimal.D6 d => 54 :: digits_of_uint d
  | Decimal.D7 d => 55 :: digits_of_uint d
  | Decimal.D8 d => 56 :: digits_of_uint d
  | Decimal.D9 d => 57 :: digits_of_uint d
  end.

Definition of_int (z : Z) : str :=
  match z with
  | Z0 => [48]
  | Zpos p => digits_of_uint (Pos.to_uint p)
  | Zneg p => 45 :: digits_of_uint (Pos.to_uint p)
  end.

End Str.

(** ** Text files

    [open(path, "r")] reads with universal newlines: ["\r\n"] and a lone
    ["\r"] reach the program as ["\n"].  Iterating over the file yields the
    lines, each with its ["\n"] kept; only the last line can lack one. *)

Module TextIO.

Fixpoint universal_newlines (raw : str) : str :=
  match raw with
  | [] => []
  | c :: raw' =>
      if c =? CR then
        LF :: match raw' with
              | d :: raw'' =>
                  if d =? LF then universal_newlines raw''
                  else universal_newlines raw'
              | [] => []
              end
      else c :: universal_newlines raw'
  end.

Fixpoint readlines (text : str) : list str :=
  match text with
  | [] => []
  | c :: text' =>
      if c =? LF then [c] :: readlines text'
      else match readlines text' with
           | l :: ls => (c :: l) :: ls
           | [] => [[c]]
           end
  end.

(** The lines a [for line in infile] loop sees. *)
Definition lines_of (raw : str) : list str :=
  readlines (universal_newlines raw).

End TextIO.

(** ** Shape of the lines of a text file *)

Module Lines.
(** A line that ends in its line break, and one that has none. *)
Definition complete (l : str) : Prop := exists body, l = body ++ [LF] /\ LF ∉ body.
Definition partial (l : str) : Prop := l <> [] /\ LF ∉ l.

(** What iterating over a text file yields: complete lines, the last one
    possibly without its line break. *)
Fixpoint well_formed (ls : list str) : Prop :=
  match ls with
  | [] => True
  | l :: ls' => (complete l \/ (partial l /\ ls' = [])) /\ well_formed ls'
  end.
End Lines.

(** ** The chain-record filter of [run_paf2liftover] (lines 25-30) *)

Module ChainFilter.

(** The test of lines 27-29 on one line:
    [not line.startswith("#") and line.strip()], then
    [len(line.split('\t')) == 13]. *)
Definition keeps (line : str) : bool :=
  if negb (Str.startswith line (py "#")) && Str.truthy (Str.strip line)
  then Nat.eqb (length (Str.split TAB line)) 13
  else false.

(** One turn of the loop: [outfile.write(line)] appends to what has been
    written so far. *)
Definition step (outfile : str) (line : str) : str :=
  if keeps line then outfile ++ line else outfile.

(** The whole loop over the lines of the temporary file, starting from
    the freshly truncated output file. *)
Definition filter_lines (lines : list str) : str :=
  fold_left step lines [].

(** Content of the final chain file for a given temporary file. *)
Definition filter_file (raw : str) : str :=
  filter_lines (TextIO.lines_of raw).

(** The lines for which [outfile.write] is called, in order. *)
Definition written (raw : str) : list str :=
  filter keeps (TextIO.lines_of raw).

End ChainFilter.

(** ** Paths ([posixpath]) *)

Module Path.

(** [os.path.join(a, b)] *)
Definition join (a b : str) : str :=
  if Str.startswith b [SLASH] then b
  else if negb (Str.truthy a) || Str.endswith a [SLASH] then a ++ b
  else a ++ SLASH :: b.

(** [p.rfind(c)]: index of the last [c], or -1. *)
Fixpoint rfind_from (c : char) (p : str) (i : Z) (found : Z) : Z :=
  match p with
  | [] => found
  | d :: p' => rfind_from c p' (i + 1)%Z (if d =? c then i else found)
  end.

Definition rfind (c : char) (p : str) : Z := rfind_from c p 0%Z (-1)%Z.

(** [os.path.splitext(p)]: split before the last dot of the last
    component, unless that component has only leading dots before it. *)
Definition splitext (p : str) : str * str :=
  let sepIndex := rfind SLASH p in
  let dotIndex := rfind DOT p in
  if (sepIndex <? dotIndex)%Z then
    let filenameIndex := Z.to_nat (sepIndex + 1) in
    let before := take (Z.to_nat dotIndex - filenameIndex) (drop filenameIndex p) in
    if existsb (fun c => negb (c =? DOT)) before
    then (take (Z.to_nat dotIndex) p, drop (Z.to_nat dotIndex) p)
    else (p, [])
  else (p, []).

End Path.

(** ** The loci table ([pandas])

    A [DataFrame] is a list of named columns.  The cells the programs meet
    are integers and strings; floating-point cells and missing values are
    outside this model. *)

Inductive cell :=
| IntCell (z : Z)
| StrCell (s : str).

Abbreviation DataFrame := (list (list N * list cell)) (only parsing).

Module Frame.

Definition column (df : DataFrame) (name : str) : option (list cell) :=
  snd <$> find (fun nc => bool_decide (fst nc = name)) df.

(** The names of [names] that are no column of [df]. *)
Definition missing (df : DataFrame) (names : list str) : list str :=
  filter (fun n => column df n = None) names.

(** [df[names]] when every name is a column. *)
Definition select (df : DataFrame) (names : list str) : DataFrame :=
  omap (fun n => pair n <$> column df n) names.

(** [df[name] = col] for a column that exists. *)
Definition assign (df : DataFrame) (name : str) (col : list cell) : DataFrame :=
  map (fun nc => if bool_decide (fst nc = name) then (name, col) else nc) df.

(** [x.astype(str)] on one cell. *)
Definition astype_str (c : cell) : str :=
  match c with
  | IntCell z => Str.of_int z
  | StrCell s => s
  end.

(** The rows of a frame; the index has the length of the first column. *)
Definition rows (df : DataFrame) : list (list cell) :=
  match df with
  | [] => []
  | (_, c) :: _ =>
      foldr (fun col acc => zip_with cons col acc) (replicate (length c) []) (map snd df)
  end.

(** One field of the csv writer with minimal quoting: a string holding the
    separator, the quote character or a line break is put in quotes, its
    quotes doubled. *)
Definition needs_quote (sep : char) (s : str) : bool :=
  existsb (fun c => (c =? sep) || (c =? DQUOTE) || (c =? LF) || (c =? CR)) s.

Definition csv_field (sep : char) (c : cell) : str :=
  match c with
  | IntCell z => Str.of_int z
  | StrCell s =>
      if needs_quote sep s
      then DQUOTE :: Str.replace s [DQUOTE] [DQUOTE; DQUOTE] ++ [DQUOTE]
      else s
  end.

Definition csv_line (sep : char) (row : list cell) : str :=
  Str.join [sep] (map (csv_field sep) row) ++ [LF].

(** Text of [df.to_csv(path, sep=sep, header=False, index=False)]. *)
Definition to_csv_text (sep : char) (df : DataFrame) : str :=
  concat (map (csv_line sep) (rows df)).

End Frame.

(** ** Exceptions, the file system and the world *)

Inductive exn :=
| CalledProcessError (cmd : list (list N)) (returncode : Z)
    (captured : option (list N * list N))
| FileNotFoundError
| KeyError (missing : list (list N))
| OtherError (class : string).

Inductive result (A : Type) :=
| Ok (a : A)
| Raise (e : exn).
Arguments Ok {A} a.
Arguments Raise {A} e.

(** A flat file system: a path is a regular file with its text or a
    directory with its listing and its [st_size].  There are no permission
    bits and no symbolic links, and text written in text mode reaches the
    file as it is (the line separator of the platform is ["\n"]). *)
Inductive node :=
| File (content : list N)
| Dir (entries : list (list N)) (size : N).

(** How a child process ended.  [Exited] carries the exit status, what the
    child wrote to its standard output and error, and the file system it
    left.  [NoSuchProgram] is the missing binary; [SpawnFailed] any other
    failure to start it. *)
Inductive proc_outcome :=
| Exited (returncode : Z) (out err : list N) (fs' : gmap (list N) node)
| NoSuchProgram
| SpawnFailed.

Record world := World {
  fs : gmap (list N) node;
  stdout : list (list N);          (* lines printed by the program *)
  spawned : list (list (list N));  (* commands given to subprocess.run *)
}.

(** What the programs take from outside: the behaviour of the external
    binaries (the n-th process started, its command line, the file system
    it sees), pandas' table parser, the texts of [str(e)], and the working
    directory. *)
Record environment := Environment {
  spawn : nat -> list (list N) -> gmap (list N) node -> proc_outcome;
  parse_table : list N -> option (list (list N * list cell));
  str_CalledProcessError : list (list N) -> Z -> list N;
  str_KeyError : list (list N) -> list N;
  getcwd : list N;
}.

Definition M (A : Type) : Type := world -> result A * world.

Definition ret {A} (a : A) : M A := fun w => (Ok a, w).

Definition raise {A} (e : exn) : M A := fun w => (Raise e, w).

Definition bind {A B} (m : M A) (k : A -> M B) : M B :=
  fun w =>
    match m w with
    | (Ok a, w') => k a w'
    | (Raise e, w') => (Raise e, w')
    end.

#[global] Instance M_ret : MRet M := @ret.
#[global] Instance M_bind : MBind M := fun A B k m => bind m k.

(** [try: body  except ...: handler]; [handler e = None] when no [except]
    clause names the class of [e]. *)
Definition try_except {A} (body : M A) (handler : exn -> option (M A)) : M A :=
  fun w =>
    match body w with
    | (Ok a, w') => (Ok a, w')
    | (Raise e, w') =>
        match handler e with
        | Some h => h w'
        | None => (Raise e, w')
        end
    end.

(** [for x in xs: body(x)] *)
Fixpoint for_each {A} (xs : list A) (body : A -> M unit) : M unit :=
  match xs with
  | [] => ret tt
  | x :: xs' => body x ;; for_each xs' body
  end.

Definition set_fs (f : gmap (list N) node) (w : world) : world :=
  {| fs := f; stdout := stdout w; spawned := spawned w |}.

Definition print (line : str) : M unit :=
  fun w => (Ok tt, {| fs := fs w; stdout := stdout w ++ [line]; spawned := spawned w |}).

Module OS.

Definition exists_ (p : str) : M bool :=
  fun w => (Ok (bool_decide (is_Some (fs w !! p))), w).

Definition isdir (p : str) : M bool :=
  fun w => (Ok (match fs w !! p with Some (Dir _ _) => true | _ => false end), w).

Definition listdir (p : str) : M (list str) :=
  fun w =>
    match fs w !! p with
    | Some (Dir entries _) => (Ok entries, w)
    | Some (File _) => (Raise (OtherError "NotADirectoryError"), w)
    | None => (Raise FileNotFoundError, w)
    end.

(** [os.makedirs(p, exist_ok=True)] *)
Definition makedirs (p : str) : M unit :=
  fun w =>
    match fs w !! p with
    | Some (Dir _ _) => (Ok tt, w)
    | Some (File _) => (Raise (OtherError "FileExistsError"), w)
    | None => (Ok tt, set_fs (<[p := Dir [] 0]> (fs w)) w)
    end.

Definition remove (p : str) : M unit :=
  fun w =>
    match fs w !! p with
    | Some (File _) => (Ok tt, set_fs (delete p (fs w)) w)
    | Some (Dir _ _) => (Raise (OtherError "IsADirectoryError"), w)
    | None => (Raise FileNotFoundError, w)
    end.

(** Bytes of one code point in UTF-8. *)
Definition utf8_width (c : char) : N :=
  if c <? 128 then 1 else if c <? 2048 then 2 else if c <? 65536 then 3 else 4.

Definition size_of (n : node) : N :=
  match n with
  | File content => foldr (fun c n => utf8_width c + n) 0 content
  | Dir _ size => size
  end.

(** [os.stat(p).st_size] *)
Definition st_size (p : str) : M N :=
  fun w =>
    match fs w !! p with
    | Some n => (Ok (size_of n), w)
    | None => (Raise FileNotFoundError, w)
    end.

(** [open(p, "r")], read to the end: the raw text. *)
Definition open_read (p : str) : M str :=
  fun w =>
    match fs w !! p with
    | Some (File content) => (Ok content, w)
    | Some (Dir _ _) => (Raise (OtherError "IsADirectoryError"), w)
    | None => (Raise FileNotFoundError, w)
    end.

(** [open(p, "w")]: the file is created or truncated. *)
Definition open_write (p : str) : M unit :=
  fun w =>
    match fs w !! p with
    | Some (Dir _ _) => (Raise (OtherError "IsADirectoryError"), w)
    | _ => (Ok tt, set_fs (<[p := File []]> (fs w)) w)
    end.

(** The text written to an open file reaches the disk when it is closed. *)
Definition close_written (p : str) (text : str) : M unit :=
  fun w => (Ok tt, set_fs (<[p := File text]> (fs w)) w).

End OS.

Section Subprocess.

Variable E : environment.

(** [subprocess.run(command, check=True)], with [capture_output=True,
    text=True] when [capture] is set. *)
Definition subprocess_run (command : list str) (capture : bool) : M unit :=
  fun w =>
    let w' f := {| fs := f; stdout := stdout w; spawned := spawned w ++ [command] |} in
    match spawn E (length (spawned w)) command (fs w) with
    | Exited rc out err f =>
        if (rc =? 0)%Z then (Ok tt, w' f)
        else (Raise (CalledProcessError command rc
                       (if capture then Some (out, err) else None)), w' f)
    | NoSuchProgram => (Raise FileNotFoundError, w' (fs w))
    | SpawnFailed => (Raise (OtherError "OSError"), w' (fs w))
    end.

(** [f"{e}"] for the exceptions the programs print. *)
Definition str_exn (e : exn) : str :=
  match e with
  | CalledProcessError cmd rc _ => str_CalledProcessError E cmd rc
  | KeyError m => str_KeyError E m
  | FileNotFoundError => []
  | OtherError _ => []
  end.

End Subprocess.

(** ** Program 1: [1_run_batch_alignment.py] *)

Module Align.
Section WithEnvironment.

Variable E : environment.

Definition minimap2_command (target_fasta query_fasta output_paf : str) : list str :=
  [ py "minimap2"; py "-ax"; py "asm5"; py "-secondary=no"; py "-K"; py "4G";
    target_fasta; query_fasta; py "-o"; output_paf ].

Definition run_minimap2 (target_fasta query_fasta output_paf : str) : M unit :=
  let command := minimap2_command target_fasta query_fasta output_paf in
  try_except
    (print (py "Running command: " ++ Str.join (py " ") command) ;;
     subprocess_run E command false ;;
     print (py "Successfully generated PAF file: " ++ output_paf))
    (fun e =>
       match e with
       | CalledProcessError _ _ _ =>
           Some (print (py "Error running minimap2: " ++ str_exn E e))
       | FileNotFoundError =>
           Some (print (py "Error: minimap2 not found in your PATH. Please ensure it is installed."))
       | _ => None
       end).

(** The test of line 48. *)
Definition is_sequence_file (filename : str) : bool :=
  Str.endswith filename (py ".fasta")
  || Str.endswith filename (py ".fa")
  || Str.endswith filename (py ".fna").

Definition query_fasta_path (input_dir filename : str) : str :=
  Path.join input_dir filename.

Definition output_paf_path (output_dir filename : str) : str :=
  let base_name := fst (Path.splitext filename) in
  Path.join output_dir (base_name ++ py "_vs_hg38.paf").

(** The command line 53 runs for one file of the directory. *)
Definition command_for (target_fasta input_dir output_dir filename : str) : list str :=
  minimap2_command target_fasta
    (query_fasta_path input_dir filename) (output_paf_path output_dir filename).

(** Body of the loop of lines 47-54. *)
Definition align_file (target_fasta input_dir output_dir filename : str) : M unit :=
  if is_sequence_file filename then
    print (py "Aligning '" ++ filename ++ py "'...") ;;
    run_minimap2 target_fasta
      (query_fasta_path input_dir filename) (output_paf_path output_dir filename) ;;
    print (replicate 30 45)
  else ret tt.

Definition process_directories (target_fasta input_dir output_dir : str) : M unit :=
  is_dir ← OS.isdir input_dir;
  if negb is_dir then
    print (py "Error: Input directory '" ++ input_dir ++ py "' does not exist.")
  else
    OS.makedirs output_dir ;;
    print (py "Processing FASTA files in: " ++ input_dir) ;;
    print (py "Outputting PAF files to: " ++ output_dir) ;;
    names ← OS.listdir input_dir;
    for_each names (align_file target_fasta input_dir output_dir).

(** [main] after [argparse] has read the three positional arguments. *)
Definition main (target_fasta input_dir output_dir : str) : M unit :=
  process_directories target_fasta input_dir output_dir.

End WithEnvironment.
End Align.

(** ** Program 2: [2_paf_liftover.py] *)

Module Liftover.
Section WithEnvironment.

Variable E : environment.

Definition tmp_of (chain_file : str) : str := chain_file ++ py ".tmp".

Definition paf2liftover_command (paf_file chain_file : str) : list str :=
  [ py "paf2liftover.py"; py "--no-chains"; py "--best-only";
    paf_file; tmp_of chain_file ].

Definition run_paf2liftover (paf_file chain_file : str) : M unit :=
  try_except
    (print (py "Running paf2liftover.py (best-only) for: " ++ paf_file) ;;
     subprocess_run E (paf2liftover_command paf_file chain_file) true ;;
     raw ← OS.open_read (tmp_of chain_file);
     OS.open_write chain_file ;;
     OS.close_written chain_file (ChainFilter.filter_file raw) ;;
     OS.remove (tmp_of chain_file) ;;
     print (py "Successfully generated filtered chain file: " ++ chain_file))
    (fun e =>
       match e with
       | CalledProcessError _ _ captured =>
           Some (print (py "Error running paf2liftover.py: " ++ str_exn E e) ;;
                 print (py "Stdout: " ++ from_option fst (py "None") captured) ;;
                 print (py "Stderr: " ++ from_option snd (py "None") captured))
       | FileNotFoundError =>
           Some (print (py "Error: paf2liftover.py not found in your PATH. Make sure the cactus toolkit is installed and the script is accessible."))
       | _ => None
       end).

Definition liftover_command (bed_file chain_file output_bed unmapped_bed : str) : list str :=
  [ py "liftOver"; bed_file; chain_file; output_bed; unmapped_bed ].

Definition msg_unmapped (unmapped_bed : str) : str :=
  py "Unmapped intervals saved to: " ++ unmapped_bed.

Definition msg_none_unmapped : str := py "No intervals were unmapped.".

(** Lines 63-66. *)
Definition report_unmapped (unmapped_bed : str) : M unit :=
  there ← OS.exists_ unmapped_bed;
  nonempty ← (if there : bool
              then size ← OS.st_size unmapped_bed; ret (0 <? size)
              else ret false);
  if nonempty : bool then print (msg_unmapped unmapped_bed)
  else print msg_none_unmapped.

Definition run_liftover (bed_file chain_file output_bed unmapped_bed : str) : M unit :=
  try_except
    (print (py "Running liftOver for chain file: " ++ chain_file) ;;
     subprocess_run E (liftover_command bed_file chain_file output_bed unmapped_bed) false ;;
     print (py "Successfully generated lifted-over BED file: " ++ output_bed) ;;
     report_unmapped unmapped_bed)
    (fun e =>
       match e with
       | CalledProcessError _ _ _ =>
           Some (print (py "Error running liftOver: " ++ str_exn E e))
       | FileNotFoundError =>
           Some (print (py "Error: liftOver not found in your PATH. Make sure the UCSC Genome Browser utilities are installed and liftOver is accessible."))
       | _ => None
       end).

Definition required_columns : list str :=
  [ py "Chromosome"; py "Start"; py "End" ].

(** [pd.read_csv(path, sep='\t')] *)
Definition read_csv (path : str) : M DataFrame :=
  raw ← OS.open_read path;
  match parse_table E raw with
  | Some df => ret df
  | None => raise (OtherError "ParserError")
  end.

(** [df[['Chromosome', 'Start', 'End']].copy()] *)
Definition getitem (df : DataFrame) (names : list str) : M DataFrame :=
  match Frame.missing df names with
  | [] => ret (Frame.select df names)
  | m => raise (KeyError m)
  end.

(** Lines 82-83 on a parsed table. *)
Definition bed_frame (df : DataFrame) : M DataFrame :=
  bed_df ← getitem df required_columns;
  match Frame.column bed_df (py "Chromosome") with
  | Some chrom =>
      ret (Frame.assign bed_df (py "Chromosome")
             (map (fun c => StrCell (py "chr" ++ Frame.astype_str c)) chrom))
  | None => raise (KeyError [py "Chromosome"])
  end.

(** [bed_df.to_csv(output_bed, sep='\t', header=False, index=False)] *)
Definition to_csv (df : DataFrame) (path : str) : M unit :=
  OS.open_write path ;;
  OS.close_written path (Frame.to_csv_text TAB df).

Definition create_hg38_bed (imprinted_loci_tsv output_bed : str) : M (option str) :=
  try_except
    (df ← read_csv imprinted_loci_tsv;
     bed_df ← bed_frame df;
     to_csv bed_df output_bed ;;
     print (py "Successfully created hg38 BED file: " ++ output_bed) ;;
     ret (Some output_bed))
    (fun e =>
       match e with
       | FileNotFoundError =>
           Some (print (py "Error: Imprinted loci TSV file not found: " ++ imprinted_loci_tsv) ;;
                 ret None)
       | KeyError _ =>
           Some (print (py "Error: Required column not found in TSV file: " ++ str_exn E e
                        ++ py ". Please ensure the TSV has 'Chromosome', 'Start', and 'End' columns.") ;;
                 ret None)
       | _ => None
       end).

(** Line 98. *)
Definition assembly_name (filename : str) : str :=
  Str.replace filename (py ".paf") [].

Definition chain_path (output_bed_dir filename : str) : str :=
  Path.join output_bed_dir (assembly_name filename ++ py "_to_hg38.chain").

Definition lifted_over_path (output_bed_dir filename : str) : str :=
  Path.join output_bed_dir (assembly_name filename ++ py "_imprinted_loci.bed").

Definition unmapped_path (unmapped_bed_dir filename : str) : str :=
  Path.join unmapped_bed_dir (assembly_name filename ++ py "_unmapped.bed").

(** Lines 108-111. *)
Definition liftover_if_chain
    (hg38_bed_file chain_file lifted_over_bed unmapped_bed name : str) : M unit :=
  there ← OS.exists_ chain_file;
  if there : bool
  then run_liftover hg38_bed_file chain_file lifted_over_bed unmapped_bed
  else print (py "Chain file not generated for " ++ name ++ py ". Skipping liftOver.").

(** Body of the loop of lines 96-111. *)
Definition process_paf_file
    (paf_dir output_bed_dir unmapped_bed_dir hg38_bed_file filename : str) : M unit :=
  if Str.endswith filename (py ".paf") then
    let paf_file := Path.join paf_dir filename in
    let chain_file := chain_path output_bed_dir filename in
    run_paf2liftover paf_file chain_file ;;
    liftover_if_chain hg38_bed_file chain_file
      (lifted_over_path output_bed_dir filename)
      (unmapped_path unmapped_bed_dir filename)
      (assembly_name filename)
  else ret tt.

Definition process_paf_directory
    (paf_dir output_bed_dir unmapped_bed_dir hg38_bed_file : str) : M unit :=
  names ← OS.listdir paf_dir;
  for_each names (process_paf_file paf_dir output_bed_dir unmapped_bed_dir hg38_bed_file).

(** [main] after [argparse] has read the four positional arguments. *)
Definition main (paf_dir output_bed_dir unmapped_bed_dir imprinted_loci_tsv : str) : M unit :=
  OS.makedirs output_bed_dir ;;
  OS.makedirs unmapped_bed_dir ;;
  created ← create_hg38_bed imprinted_loci_tsv
              (Path.join (getcwd E) (py "hg38_imprinted_loci.bed"));
  match created with
  | None => ret tt
  | Some hg38_bed_file =>
      if Str.truthy hg38_bed_file then
        process_paf_directory paf_dir output_bed_dir unmapped_bed_dir hg38_bed_file ;;
        there ← OS.exists_ hg38_bed_file;
        if there : bool then OS.remove hg38_bed_file else ret tt
      else ret tt
  end.

End WithEnvironment.
End Liftover.

(** ** Removing the occurrences of a substring, position by position

    The reading of "the filename with every occurrence of the substring
    removed" that [assembly_name] is compared with: an occurrence of [pat]
    starts at [i] when [pat] is a prefix of the text from [i] on; position
    [j] is covered when an occurrence starting at some [i <= j] reaches it;
    the result keeps the characters at the positions no occurrence
    covers. *)

Module Occurrences.

(** The characters of [s] at the positions [keep] selects. *)
Fixpoint pick (keep : nat -> bool) (s : str) : str :=
  match s with
  | [] => []
  | c :: s' =>
      if keep O then c :: pick (fun j => keep (S j)) s'
      else pick (fun j => keep (S j)) s'
  end.

Definition occurs_at (pat s : str) (i : nat) : bool :=
  Str.startswith (drop i s) pat.

Definition covered (pat s : str) (j : nat) : bool :=
  existsb (fun i => occurs_at pat s i && Nat.ltb j (i + length pat)) (seq 0 (S j)).

Definition remove_occurrences (pat s : str) : str :=
  pick (fun j => negb (covered pat s j)) s.

(** No occurrence of [pat] starts inside another one. *)
Definition unbordered (pat : str) : Prop :=
  forall (s : str) (i : nat),
    (0 < i < length pat)%nat -> occurs_at pat s 0 = true -> occurs_at pat s i = false.

End Occurrences.

(** ** Vocabulary of the statements

    The lines the programs print, and the ways an external tool can end,
    named for use in the theorems. *)

Module Converter.
Section WithEnvironment.

Variable E : environment.

Definition msg_running (paf_file : str) : str :=
  py "Running paf2liftover.py (best-only) for: " ++ paf_file.

Definition msg_not_found : str :=
  py "Error: paf2liftover.py not found in your PATH. Make sure the cactus toolkit is installed and the script is accessible.".

Definition msg_skipping (name : str) : str :=
  py "Chain file not generated for " ++ name ++ py ". Skipping liftOver.".

(** What [run_paf2liftover] prints after the converter failed. *)
Definition failure_lines (paf_file chain_file : str) (o : proc_outcome) : list str :=
  match o with
  | Exited rc out err _ =>
      [ py "Error running paf2liftover.py: "
          ++ str_CalledProcessError E (Liftover.paf2liftover_command paf_file chain_file) rc;
        py "Stdout: " ++ out;
        py "Stderr: " ++ err ]
  | _ => [ msg_not_found ]
  end.

(** The converter failed and left the file system [f]. *)
Definition converter_failed (o : proc_outcome) (w : world) (f : gmap (list N) node) : Prop :=
  match o with
  | Exited rc _ _ f' => rc <> 0%Z /\ f = f'
  | NoSuchProgram => f = fs w
  | SpawnFailed => False
  end.

End WithEnvironment.
End Converter.

Module Table.
Section WithEnvironment.

Variable E : environment.

(** The cell line 83 puts in the chromosome column. *)
Definition chr_cell (c : cell) : cell := StrCell (py "chr" ++ Frame.astype_str c).

Definition msg_tsv_not_found (tsv : str) : str :=
  py "Error: Imprinted loci TSV file not found: " ++ tsv.

Definition msg_column_not_found (missing : list str) : str :=
  py "Error: Required column not found in TSV file: " ++ str_KeyError E missing
  ++ py ". Please ensure the TSV has 'Chromosome', 'Start', and 'End' columns.".

Definition msg_created (output_bed : str) : str :=
  py "Successfully created hg38 BED file: " ++ output_bed.

End WithEnvironment.
End Table.

Module Trace.

(** Number of times [cmd] was given to [subprocess.run] in [trace]. *)
Definition invocations (cmd : list str) (trace : list (list str)) : nat :=
  length (filter (fun c => c = cmd) trace).

(** The aligner either exits or is missing: the two failures
    [run_minimap2] handles. *)
Definition handled (o : proc_outcome) : Prop := o <> SpawnFailed.

End Trace.

(** ** Sample environments and worlds *)

Module Sample.

Definition line_of (fields : list str) : str := Str.join [TAB] fields ++ [LF].

(** A record of thirteen fields, one of twelve, a comment and a line of
    twelve tabs. *)
Definition record13 : str :=
  line_of [ py "chain"; py "100"; py "chr1"; py "1000"; py "+"; py "0"; py "100";
            py "ctg1"; py "500"; py "+"; py "0"; py "100"; py "1" ].

Definition record12 : str :=
  line_of [ py "chain"; py "100"; py "chr1"; py "1000"; py "+"; py "0"; py "100";
            py "ctg1"; py "500"; py "+"; py "0"; py "100" ].

Definition comment : str := py "# converted" ++ [LF].

Definition tabs12 : str := replicate 12 TAB ++ [LF].

Definition tmp_text : str := comment ++ record13 ++ [LF] ++ record12 ++ record13.

(** The loci table of one row. *)
Definition loci : DataFrame :=
  [ (py "Name", [StrCell (py "H19")]);
    (py "Chromosome", [IntCell 1]);
    (py "Start", [IntCell 1000]);
    (py "End", [IntCell 2000]) ].

Definition loci_without_end : DataFrame :=
  [ (py "Chromosome", [IntCell 1]); (py "Start", [IntCell 1000]) ].

(** External tools: [minimap2] is missing for [b.fa], fails on [c.fna]
    and succeeds otherwise; [paf2liftover.py] writes [tmp_text] to its
    last argument; [liftOver] writes an empty unmapped file. *)
Definition tools (n : nat) (cmd : list str) (f : gmap (list N) node) : proc_outcome :=
  match cmd with
  | prog :: args =>
      if bool_decide (prog = py "minimap2") then
        if bool_decide (args !! 6%nat = Some (py "in/b.fa")) then NoSuchProgram
        else if bool_decide (args !! 6%nat = Some (py "in/c.fna")) then Exited 1 [] [] f
        else Exited 0 [] [] f
      else if bool_decide (prog = py "paf2liftover.py") then
        Exited 0 [] [] (<[default [] (last args) := File tmp_text]> f)
      else if bool_decide (prog = py "liftOver") then
        Exited 0 [] [] (<[default [] (last args) := File []]> f)
      else NoSuchProgram
  | [] => SpawnFailed
  end.

(** A converter that always exits with status 2. *)
Definition broken_converter (n : nat) (cmd : list str) (f : gmap (list N) node)
  : proc_outcome := Exited 2 (py "out") (py "err") f.

Definition parse (raw : str) : option DataFrame :=
  if bool_decide (raw = py "short") then Some loci_without_end else Some loci.

Definition env : environment :=
  Environment tools parse (fun _ _ => py "non-zero exit") (fun _ => py "not in index") (py "/work").

Definition env_broken : environment :=
  Environment broken_converter parse (fun _ _ => py "non-zero exit") (fun _ => py "not in index") (py "/work").

Definition disk : gmap (list N) node :=
  {[ py "in" := Dir [py "a.fasta"; py "b.fa"; py "notes.txt"; py "c.fna"] 4096;
     py "loci.tsv" := File (py "table");
     py "short.tsv" := File (py "short") ]}.

Definition start : world := World disk [] [].

End Sample.

(** ** Further vocabulary: counting, containment, escaping exceptions *)

Module Substring.

(** [s.count(c)] for one character. *)
Definition count (c : char) (s : str) : nat :=
  length (filter (fun d => d = c) s).

(** [pat in s] *)
Definition contains (pat s : str) : bool :=
  existsb (Occurrences.occurs_at pat s) (seq 0 (S (length s))).

(** No character of [t] occurs in [pat]. *)
Definition disjoint_chars (pat t : str) : bool :=
  forallb (fun c => negb (existsb (N.eqb c) pat)) t.

End Substring.

Module Escapes.

(** Every exception [m] lets out satisfies [P]. *)
Definition only_raises {A} (P : exn -> Prop) (m : M A) : Prop :=
  forall w e w', m w = (Raise e, w') -> P e.

(** The classes no [except] clause of the two programs names. *)
Definition unhandled (e : exn) : Prop :=
  match e with OtherError _ => True | _ => False end.

Definition not_key_error (e : exn) : Prop :=
  match e with KeyError _ => False | _ => True end.

Definition not_process_error (e : exn) : Prop :=
  match e with CalledProcessError _ _ _ => False | _ => True end.

End Escapes.

Module Setup.


(** The interval file of program 2. *)
Definition bed_path (E : environment) : str :=
  Path.join (getcwd E) (py "hg38_imprinted_loci.bed").

End Setup.

Module Tools.

(** Error line of [run_liftover] and of [run_minimap2] after a failure. *)
Definition liftover_error (E : environment) (cmd : list str) (o : proc_outcome) : str :=
  match o with
  | Exited rc _ _ _ => py "Error running liftOver: " ++ str_CalledProcessError E cmd rc
  | _ => py "Error: liftOver not found in your PATH. Make sure the UCSC Genome Browser utilities are installed and liftOver is accessible."
  end.

Definition minimap2_error (E : environment) (cmd : list str) (o : proc_outcome) : str :=
  match o with
  | Exited rc _ _ _ => py "Error running minimap2: " ++ str_CalledProcessError E cmd rc
  | _ => py "Error: minimap2 not found in your PATH. Please ensure it is installed."
  end.

End Tools.

Module Sample2.

(** No program can be started. *)
Definition env_unstartable : environment :=
  Environment (fun _ _ _ => SpawnFailed) Sample.parse
    (fun _ _ => py "non-zero exit") (fun _ => py "not in index") (py "/work").

(** Every tool exits with status 0 and writes nothing. *)
Definition env_silent : environment :=
  Environment (fun _ _ f => Exited 0 [] [] f) Sample.parse
    (fun _ _ => py "non-zero exit") (fun _ => py "not in index") (py "/work").

(** A disk with a chain file left by an earlier run, and a directory of
    alignment files. *)
Definition disk_stale : gmap (list N) node :=
  <[py "out/a_to_hg38.chain" := File Sample.record13]>
    (<[py "pafs" := Dir [py "a.paf"; py "README"] 4096]> Sample.disk).

Definition start_stale : world := World disk_stale [] [].

(** A table with a named chromosome. *)
Definition loci_x : DataFrame :=
  [ (py "Chromosome", [IntCell 7; StrCell (py "chrX")]);
    (py "Start", [IntCell 10; IntCell 20]);
    (py "End", [IntCell 15; IntCell 25]) ].

End Sample2.

(** * Theorems *)

(** ** The model on small inputs *)

Example strip_blank : Str.strip (py "  " ++ [TAB; LF]) = [].
Proof. reflexivity. Qed.

Example split_record13 : length (Str.split TAB Sample.record13) = 13%nat.
Proof. reflexivity. Qed.

Example lines_of_mixed_breaks :
  TextIO.lines_of (py "a" ++ [CR; LF] ++ py "b" ++ [CR] ++ py "c")
  = [py "a" ++ [LF]; py "b" ++ [LF]; py "c"].
Proof. reflexivity. Qed.

Example filter_sample_file :
  ChainFilter.filter_file Sample.tmp_text = Sample.record13 ++ Sample.record13.
Proof. reflexivity. Qed.

Example splitext_last_dot :
  Path.splitext (py "sample.v2.fasta") = (py "sample.v2", py ".fasta").
Proof. reflexivity. Qed.

Example splitext_leading_dot : Path.splitext (py ".fasta") = (py ".fasta", []).
Proof. reflexivity. Qed.

Example join_adds_separator : Path.join (py "in") (py "a.fa") = py "in/a.fa".
Proof. reflexivity. Qed.

Example assembly_name_single_pass :
  Liftover.assembly_name (py ".p.pafaf.paf") = py ".paf".
Proof. reflexivity. Qed.

(** ** Stepping through the monad *)

Ltac unfold_M :=
  unfold mbind, mret, M_bind, M_ret, bind, ret, raise, try_except, print, set_fs in *.

Module Steps.

Lemma bind_unfold {A B} (m : M A) (k : A -> M B) (w : world) :
  (m ≫= k) w
  = match m w with
    | (Ok a, w') => k a w'
    | (Raise e, w') => (Raise e, w')
    end.
Proof. reflexivity. Qed.

Lemma bind_ok {A B} (m : M A) (k : A -> M B) (w w' : world) (a : A) :
  m w = (Ok a, w') -> (m ≫= k) w = k a w'.
Proof. intros H. by rewrite bind_unfold, H. Qed.

Lemma bind_raise {A B} (m : M A) (k : A -> M B) (w w' : world) (e : exn) :
  m w = (Raise e, w') -> (m ≫= k) w = (Raise e, w').
Proof. intros H. by rewrite bind_unfold, H. Qed.

Lemma print_unfold (line : str) (w : world) :
  print line w = (Ok tt, World (fs w) (stdout w ++ [line]) (spawned w)).
Proof. reflexivity. Qed.

Lemma try_ok {A} (body : M A) (handler : exn -> option (M A)) (w w' : world) (a : A) :
  body w = (Ok a, w') -> try_except body handler w = (Ok a, w').
Proof. intros H. unfold try_except. by rewrite H. Qed.

Lemma try_caught {A} (body : M A) (handler : exn -> option (M A))
    (w w' : world) (e : exn) (h : M A) :
  body w = (Raise e, w') -> handler e = Some h -> try_except body handler w = h w'.
Proof. intros H Hh. unfold try_except. by rewrite H, Hh. Qed.

Lemma try_uncaught {A} (body : M A) (handler : exn -> option (M A))
    (w w' : world) (e : exn) :
  body w = (Raise e, w') -> handler e = None ->
  try_except body handler w = (Raise e, w').
Proof. intros H Hh. unfold try_except. by rewrite H, Hh. Qed.

Section Runs.
Variable E : environment.

Lemma run_exit0 (cmd : list str) (capture : bool) (w : world)
    (out err : str) (f : gmap (list N) node) :
  spawn E (length (spawned w)) cmd (fs w) = Exited 0 out err f ->
  subprocess_run E cmd capture w
  = (Ok tt, World f (stdout w) (spawned w ++ [cmd])).
Proof. intros H. unfold subprocess_run. by rewrite H. Qed.

Lemma run_nonzero (cmd : list str) (capture : bool) (w : world)
    (rc : Z) (out err : str) (f : gmap (list N) node) :
  spawn E (length (spawned w)) cmd (fs w) = Exited rc out err f -> rc <> 0%Z ->
  subprocess_run E cmd capture w
  = (Raise (CalledProcessError cmd rc (if capture then Some (out, err) else None)),
     World f (stdout w) (spawned w ++ [cmd])).
Proof.
  intros H Hrc. unfold subprocess_run. rewrite H.
  by destruct (Z.eqb_spec rc 0).
Qed.

Lemma run_missing (cmd : list str) (capture : bool) (w : world) :
  spawn E (length (spawned w)) cmd (fs w) = NoSuchProgram ->
  subprocess_run E cmd capture w
  = (Raise FileNotFoundError, World (fs w) (stdout w) (spawned w ++ [cmd])).
Proof. intros H. unfold subprocess_run. by rewrite H. Qed.
End Runs.

End Steps.

Module TextIOFacts.
Import TextIO Lines.

Lemma readlines_concat (text : str) : concat (readlines text) = text.
Proof.
  induction text as [|c text IH]; [done|].
  simpl. destruct (N.eqb_spec c LF) as [->|Hc].
  - simpl. by rewrite IH.
  - destruct (readlines text) as [|l ls]; simpl in *.
    + by rewrite <- IH.
    + by rewrite <- IH.
Qed.

Lemma complete_cons (c : N) (l : str) : c <> LF -> complete l -> complete (c :: l).
Proof.
  intros Hc (body & -> & Hb). exists (c :: body). split; [done|].
  rewrite elem_of_cons. intros [?|?]; [by subst|done].
Qed.

Lemma partial_cons (c : N) (l : str) : c <> LF -> LF ∉ l -> partial (c :: l).
Proof.
  intros Hc Hl. split; [done|]. rewrite elem_of_cons. intros [?|?]; [by subst|done].
Qed.

Lemma readlines_well_formed (text : str) : well_formed (readlines text).
Proof.
  induction text as [|c text IH]; [done|].
  simpl. destruct (N.eqb_spec c LF) as [->|Hc].
  - split; [|done]. left. exists []. split; [done|]. apply not_elem_of_nil.
  - destruct (readlines text) as [|l ls].
    + split; [|done]. right. split; [|done]. apply partial_cons; [done|apply not_elem_of_nil].
    + destruct IH as [Hl Hls]. split; [|done].
      destruct Hl as [Hl|[[_ Hl] ->]].
      * left. by apply complete_cons.
      * right. split; [|done]. by apply partial_cons.
Qed.

Lemma readlines_complete_app (l rest : str) :
  complete l -> readlines (l ++ rest) = l :: readlines rest.
Proof.
  intros (body & -> & Hb). induction body as [|b body IH]; [done|].
  apply not_elem_of_cons in Hb as [Hb Hbody].
  simpl. destruct (N.eqb_spec b LF) as [->|_]; [done|].
  simpl in IH. by rewrite IH.
Qed.

Lemma readlines_partial (l : str) : partial l -> readlines l = [l].
Proof.
  intros [Hne Hl]. induction l as [|c l IH]; [done|].
  apply not_elem_of_cons in Hl as [Hc Hl].
  simpl. destruct (N.eqb_spec c LF) as [->|_]; [done|].
  destruct l as [|d l]; [done|]. by rewrite IH.
Qed.

Lemma readlines_of_lines (ls : list str) :
  well_formed ls -> readlines (concat ls) = ls.
Proof.
  induction ls as [|l ls IH]; [done|].
  intros [[Hl|[Hl ->]] Hls]; simpl.
  - rewrite readlines_complete_app by done. by rewrite IH.
  - rewrite app_nil_r. by apply readlines_partial.
Qed.

Lemma well_formed_filter (P : str -> Prop) `{!forall l, Decision (P l)} (ls : list str) :
  well_formed ls -> well_formed (filter P ls).
Proof.
  induction ls as [|l ls IH]; [done|].
  intros [Hl Hls]. rewrite filter_cons. destruct (decide (P l)); [|by apply IH].
  split; [|by apply IH].
  destruct Hl as [Hl|[Hl ->]]; [by left|by right].
Qed.

Lemma universal_newlines_no_CR (raw : str) :
  (CR ∉ universal_newlines raw) /\ forall c, CR ∉ universal_newlines (c :: raw).
Proof.
  assert (Hcons : forall (c : N) (s : str), c <> CR -> CR ∉ s -> CR ∉ c :: s).
  { intros c s Hc Hs. rewrite elem_of_cons. intros [?|?]; [by subst|done]. }
  induction raw as [|d raw [IH1 IH2]].
  - split; [apply not_elem_of_nil|]. intros c. simpl.
    destruct (N.eqb_spec c CR); apply Hcons; try done; apply not_elem_of_nil.
  - split; [apply IH2|]. intros c.
    change (universal_newlines (c :: d :: raw)) with
      (if c =? CR
       then LF :: (if d =? LF then universal_newlines raw else universal_newlines (d :: raw))
       else c :: universal_newlines (d :: raw)).
    destruct (N.eqb_spec c CR).
    + apply Hcons; [done|]. destruct (d =? LF); [done|apply IH2].
    + apply Hcons; [done|apply IH2].
Qed.

Lemma universal_newlines_id (text : str) : CR ∉ text -> universal_newlines text = text.
Proof.
  induction text as [|c text IH]; [done|].
  intros [Hc Ht]%not_elem_of_cons. simpl.
  destruct (N.eqb_spec c CR); [done|]. by rewrite IH.
Qed.

End TextIOFacts.

Module ChainFilterFacts.
Import TextIO Lines TextIOFacts ChainFilter.

Lemma fold_step (lines : list str) (outfile : str) :
  fold_left step lines outfile = outfile ++ concat (filter keeps lines).
Proof.
  revert outfile. induction lines as [|l lines IH]; intros outfile; simpl.
  - by rewrite app_nil_r.
  - rewrite IH, filter_cons. unfold step.
    destruct (keeps l); simpl; [by rewrite <- app_assoc|done].
Qed.

Lemma filter_file_written (raw : str) : filter_file raw = concat (written raw).
Proof. unfold filter_file, filter_lines. by rewrite fold_step. Qed.

Lemma written_well_formed (raw : str) : well_formed (written raw).
Proof. apply well_formed_filter, readlines_well_formed. Qed.

Lemma elem_of_concat_filter (P : str -> Prop) `{!forall l, Decision (P l)}
    (c : N) (ls : list str) :
  c ∈ concat (filter P ls) -> c ∈ concat ls.
Proof.
  induction ls as [|l ls IH]; [done|].
  rewrite filter_cons. simpl. destruct (decide (P l)); simpl.
  - rewrite !elem_of_app. intros [?|?]; [by left|right; by apply IH].
  - rewrite elem_of_app. intros ?. right. by apply IH.
Qed.

Lemma filter_file_no_CR (raw : str) : CR ∉ filter_file raw.
Proof.
  rewrite filter_file_written. unfold written, lines_of. intros H.
  apply elem_of_concat_filter in H. rewrite readlines_concat in H.
  by apply (universal_newlines_no_CR raw).
Qed.

(** Reading the final chain file back gives the lines that were written. *)
Lemma lines_of_filter_file (raw : str) : lines_of (filter_file raw) = written raw.
Proof.
  unfold lines_of. rewrite universal_newlines_id by apply filter_file_no_CR.
  rewrite filter_file_written. apply readlines_of_lines, written_well_formed.
Qed.

Lemma keeps_spec (line : str) :
  keeps line = true <->
  Str.startswith line (py "#") = false /\ Str.strip line <> [] /\
  length (Str.split TAB line) = 13%nat.
Proof.
  unfold keeps.
  destruct (Str.startswith line (py "#")); simpl; [intuition congruence|].
  destruct (Str.strip line); simpl; [intuition congruence|].
  rewrite Nat.eqb_eq. intuition congruence.
Qed.

Lemma elem_of_written (raw line : str) :
  line ∈ written raw <-> line ∈ lines_of raw /\ keeps line = true.
Proof.
  unfold written. rewrite list_elem_of_filter.
  destruct (keeps line); simpl; intuition congruence.
Qed.

End ChainFilterFacts.

Ltac in_list :=
  vm_compute; repeat first [apply list_elem_of_here | apply list_elem_of_further].

(** C1 (as amended).  For every line the filtering pass of
    [run_paf2liftover] reads from the temporary file: a line of 12
    tab-separated fields, a line starting with ['#'], or a blank line (one
    that [strip] empties) is not among the lines of the final chain file;
    a line of exactly 13 tab-separated fields that has no comment prefix
    and is not blank is among them. *)
Theorem C1_filter_decides_lines (raw line : str) :
  line ∈ TextIO.lines_of raw ->
  ((length (Str.split TAB line) = 12%nat \/ Str.startswith line (py "#") = true
    \/ Str.strip line = []) ->
   line ∉ TextIO.lines_of (ChainFilter.filter_file raw))
  /\ (length (Str.split TAB line) = 13%nat -> Str.startswith line (py "#") = false ->
      Str.strip line <> [] ->
      line ∈ TextIO.lines_of (ChainFilter.filter_file raw)).
Proof.
  intros Hin.
  rewrite ChainFilterFacts.lines_of_filter_file, ChainFilterFacts.elem_of_written,
    ChainFilterFacts.keeps_spec.
  split.
  - intros H (_ & Hs & Hb & H13). destruct H as [H|[H|H]]; congruence.
  - by intros H13 Hs Hb.
Qed.

(** The theorem on a temporary file that holds a comment, a record of 13
    fields, an empty line, a record of 12 fields and the first record
    again. *)
Lemma C1_filter_decides_lines_witness :
  Sample.record13 ∈ TextIO.lines_of (ChainFilter.filter_file Sample.tmp_text)
  /\ (Sample.record12 ∉ TextIO.lines_of (ChainFilter.filter_file Sample.tmp_text))
  /\ (Sample.comment ∉ TextIO.lines_of (ChainFilter.filter_file Sample.tmp_text))
  /\ ([LF] ∉ TextIO.lines_of (ChainFilter.filter_file Sample.tmp_text)).
Proof.
  repeat split.
  - apply (C1_filter_decides_lines Sample.tmp_text Sample.record13);
      [in_list|reflexivity|reflexivity|by vm_compute].
  - apply (C1_filter_decides_lines Sample.tmp_text Sample.record12);
      [in_list|left; reflexivity].
  - apply (C1_filter_decides_lines Sample.tmp_text Sample.comment);
      [in_list|right; left; reflexivity].
  - apply (C1_filter_decides_lines Sample.tmp_text [LF]);
      [in_list|right; right; reflexivity].
Defined.

(** C1 as stated fails on a line of twelve tabs: it splits into exactly 13
    (empty) fields and has no comment prefix, yet [line.strip()] is empty,
    the guard of line 27 skips it and the final chain file stays empty. *)
Lemma C1_counterexample :
  Sample.tabs12 ∈ TextIO.lines_of Sample.tabs12
  /\ length (Str.split TAB Sample.tabs12) = 13%nat
  /\ Str.startswith Sample.tabs12 (py "#") = false
  /\ ChainFilter.filter_file Sample.tabs12 = []
  /\ (Sample.tabs12 ∉ TextIO.lines_of (ChainFilter.filter_file Sample.tabs12)).
Proof.
  split; [in_list|]. split; [reflexivity|]. split; [reflexivity|].
  split; [reflexivity|].
  change (ChainFilter.filter_file Sample.tabs12) with (@nil N).
  apply not_elem_of_nil.
Qed.

(** C2.  The chain-record filter is idempotent: filtering the file it
    produced gives that file again. *)
Theorem C2_filter_idempotent (raw : str) :
  ChainFilter.filter_file (ChainFilter.filter_file raw) = ChainFilter.filter_file raw.
Proof.
  rewrite (ChainFilterFacts.filter_file_written (ChainFilter.filter_file raw)).
  unfold ChainFilter.written at 1.
  rewrite ChainFilterFacts.lines_of_filter_file. unfold ChainFilter.written.
  rewrite list_filter_filter, ChainFilterFacts.filter_file_written.
  unfold ChainFilter.written. f_equal.
  apply list_filter_iff. tauto.
Qed.

Module OccurrencesFacts.
Import Occurrences.

Lemma pick_ext (f g : nat -> bool) (s : str) :
  (forall j, (j < length s)%nat -> f j = g j) -> pick f s = pick g s.
Proof.
  revert f g. induction s as [|c s IH]; intros f g Hfg; [done|].
  simpl. rewrite (Hfg 0%nat) by (simpl; lia).
  rewrite (IH (fun j => f (S j)) (fun j => g (S j))); [done|].
  intros j Hj. apply Hfg. simpl. lia.
Qed.

Lemma occurs_at_cons (pat : str) (c : N) (s : str) (i : nat) :
  occurs_at pat (c :: s) (S i) = occurs_at pat s i.
Proof. reflexivity. Qed.

Lemma covered_here (pat : str) (s : str) :
  covered pat s 0 = occurs_at pat s 0 && Nat.ltb 0 (length pat).
Proof. unfold covered. simpl. by rewrite orb_false_r. Qed.

Lemma existsb_seq_shift (f : nat -> bool) (a n : nat) :
  existsb f (seq (S a) n) = existsb (fun i => f (S i)) (seq a n).
Proof.
  revert a. induction n as [|n IH]; intros a; [done|].
  simpl. by rewrite IH.
Qed.

Lemma covered_cons (pat : str) (c : N) (s : str) (j : nat) :
  covered pat (c :: s) (S j)
  = (occurs_at pat (c :: s) 0 && Nat.ltb (S j) (length pat)) || covered pat s j.
Proof.
  unfold covered.
  change (seq 0 (S (S j))) with (0%nat :: seq 1 (S j)).
  cbn [existsb]. rewrite existsb_seq_shift. reflexivity.
Qed.

Lemma replace_from_pick (pat : str) (Hpat : unbordered pat) (Hne : pat <> [])
    (t : str) (k : nat) :
  (forall i, (i < k)%nat -> occurs_at pat t i = false) ->
  Str.replace_from pat [] k t
  = pick (fun j => Nat.leb k j && negb (covered pat t j)) t.
Proof.
  revert k. induction t as [|c t IH]; intros k Hk; [done|].
  destruct k as [|k].
  - cbn [Str.replace_from pick Nat.leb andb]. rewrite covered_here.
    change (Str.startswith (c :: t) pat) with (occurs_at pat (c :: t) 0).
    destruct (occurs_at pat (c :: t) 0) eqn:Hocc.
    + destruct pat as [|a pat]; [done|].
      cbn [negb andb length Nat.ltb Nat.leb app].
      rewrite IH.
      * apply pick_ext. intros j _. rewrite covered_cons, Hocc. cbn [andb].
        rewrite negb_orb. f_equal. cbn [length Nat.sub].
        rewrite Nat.sub_0_r.
        destruct (Nat.leb_spec (length pat) j), (Nat.ltb_spec (S j) (S (length pat)));
          simpl; first [done|lia].
      * intros i Hi. rewrite <- (occurs_at_cons _ c). apply Hpat; [|done].
        simpl in *. lia.
    + cbn [negb andb]. f_equal. rewrite IH by (intros; lia).
      apply pick_ext. intros j _. by rewrite covered_cons, Hocc.
  - cbn [Str.replace_from pick Nat.leb andb].
    rewrite IH.
    + apply pick_ext. intros j _. rewrite covered_cons.
      rewrite (Hk 0%nat) by lia. reflexivity.
    + intros i Hi. rewrite <- (occurs_at_cons _ c). apply Hk. lia.
Qed.

Lemma startswith_app (s p : str) :
  Str.startswith s p = true <-> exists t, s = p ++ t.
Proof.
  revert s. induction p as [|a p IH]; intros s.
  - destruct s; (split; [by eexists|done]).
  - destruct s as [|c s]; simpl.
    + split; [done|]. by intros [t ?].
    + rewrite andb_true_iff, N.eqb_eq, IH. split.
      * intros [-> [t ->]]. by exists t.
      * intros [t [= -> ->]]. split; [done|]. by exists t.
Qed.

Lemma paf_unbordered : unbordered (py ".paf").
Proof.
  intros s i Hi Hocc. unfold occurs_at in Hocc. rewrite drop_0 in Hocc.
  apply startswith_app in Hocc as [t ->].
  change (length (py ".paf")) with 4%nat in Hi.
  destruct i as [|[|[|[|i]]]]; try lia; reflexivity.
Qed.

(** [str.replace] with an empty replacement removes the occurrences. *)
Lemma replace_removes (pat : str) (s : str) :
  unbordered pat -> pat <> [] -> Str.replace s pat [] = remove_occurrences pat s.
Proof.
  intros Hpat Hne. unfold Str.replace. rewrite replace_from_pick by (done || lia).
  by apply pick_ext.
Qed.
End OccurrencesFacts.

(** C10.  [process_paf_directory] derives the assembly name of a file by
    removing every occurrence of [".paf"] from its name, not only the
    trailing extension: ['a.paf.paf'] gives ['a'] and ['x.paf_y.paf'] gives
    ['x_y']; the chain, mapped and unmapped paths are built from that
    name. *)
Theorem C10_assembly_name_removes_every_paf :
  (forall filename : str,
     Liftover.assembly_name filename
     = Occurrences.remove_occurrences (py ".paf") filename)
  /\ Liftover.assembly_name (py "a.paf.paf") = py "a"
  /\ Liftover.assembly_name (py "x.paf_y.paf") = py "x_y"
  /\ (forall output_bed_dir unmapped_bed_dir filename : str,
        Liftover.chain_path output_bed_dir filename
        = Path.join output_bed_dir
            (Occurrences.remove_occurrences (py ".paf") filename ++ py "_to_hg38.chain")
        /\ Liftover.lifted_over_path output_bed_dir filename
          = Path.join output_bed_dir
              (Occurrences.remove_occurrences (py ".paf") filename ++ py "_imprinted_loci.bed")
        /\ Liftover.unmapped_path unmapped_bed_dir filename
          = Path.join unmapped_bed_dir
              (Occurrences.remove_occurrences (py ".paf") filename ++ py "_unmapped.bed")).
Proof.
  assert (H : forall filename : str,
             Liftover.assembly_name filename
             = Occurrences.remove_occurrences (py ".paf") filename).
  { intros filename. apply OccurrencesFacts.replace_removes;
      [apply OccurrencesFacts.paf_unbordered|done]. }
  split; [exact H|]. split; [reflexivity|]. split; [reflexivity|].
  intros obd ubd filename.
  unfold Liftover.chain_path, Liftover.lifted_over_path, Liftover.unmapped_path.
  by rewrite H.
Qed.

Module LiftoverFacts.
Section WithEnvironment.
Import Liftover.
Variable E : environment.

Lemma tmp_of_ne (chain_file : str) : tmp_of chain_file <> chain_file.
Proof.
  unfold tmp_of. intros H. apply (f_equal length) in H.
  rewrite length_app in H. simpl in H. lia.
Qed.

Lemma msg_unmapped_ne (unmapped_bed : str) : msg_unmapped unmapped_bed <> msg_none_unmapped.
Proof. discriminate. Qed.

Lemma report_unmapped_spec (unmapped_bed : str) (w : world) :
  exists report,
    report_unmapped unmapped_bed w
    = (Ok tt, World (fs w) (stdout w ++ [report]) (spawned w))
    /\ (report = msg_unmapped unmapped_bed <->
        exists n, fs w !! unmapped_bed = Some n /\ 0 < OS.size_of n)
    /\ (report = msg_none_unmapped <->
        ~ exists n, fs w !! unmapped_bed = Some n /\ 0 < OS.size_of n).
Proof.
  unfold report_unmapped, OS.exists_, OS.st_size. unfold_M.
  destruct (fs w !! unmapped_bed) as [n|] eqn:Hn; simpl.
  - rewrite Hn. simpl. destruct (N.ltb_spec 0 (OS.size_of n)) as [Hpos|Hzero].
    + exists (msg_unmapped unmapped_bed). split; [done|]. split.
      * split; [|done]. intros _. by exists n.
      * split; [intros H; by apply msg_unmapped_ne in H|].
        intros H. destruct H. by exists n.
    + exists msg_none_unmapped. split; [done|]. split.
      * split; [intros H; symmetry in H; by apply msg_unmapped_ne in H|].
        intros (n' & [= <-] & Hn'). lia.
      * split; [|done]. intros _ (n' & [= <-] & Hn'). lia.
  - exists msg_none_unmapped. split; [done|]. split.
    + split; [intros H; symmetry in H; by apply msg_unmapped_ne in H|].
      by intros (n' & ? & _).
    + split; [|done]. by intros _ (n' & ? & _).
Qed.

End WithEnvironment.
End LiftoverFacts.

(** C6.  After a successful liftOver run, [run_liftover] prints, as its
    last line, that unmapped intervals were saved exactly when the
    unmapped-output file exists with a size above zero, and that no
    intervals were unmapped exactly when it is absent or of size zero. *)
Theorem C6_unmapped_report (E : environment)
    (bed_file chain_file output_bed unmapped_bed : str) (w : world)
    (out err : str) (f : gmap (list N) node) :
  spawn E (length (spawned w))
    (Liftover.liftover_command bed_file chain_file output_bed unmapped_bed) (fs w)
  = Exited 0 out err f ->
  exists report,
    Liftover.run_liftover E bed_file chain_file output_bed unmapped_bed w
    = (Ok tt,
       World f
         (stdout w ++
            [ py "Running liftOver for chain file: " ++ chain_file;
              py "Successfully generated lifted-over BED file: " ++ output_bed;
              report ])
         (spawned w ++
            [Liftover.liftover_command bed_file chain_file output_bed unmapped_bed]))
    /\ (report = Liftover.msg_unmapped unmapped_bed <->
        exists n, f !! unmapped_bed = Some n /\ 0 < OS.size_of n)
    /\ (report = Liftover.msg_none_unmapped <->
        ~ exists n, f !! unmapped_bed = Some n /\ 0 < OS.size_of n).
Proof.
  intros Hspawn.
  set (cmd := Liftover.liftover_command bed_file chain_file output_bed unmapped_bed) in *.
  set (w1 := World f
               (stdout w ++ [py "Running liftOver for chain file: " ++ chain_file;
                             py "Successfully generated lifted-over BED file: " ++ output_bed])
               (spawned w ++ [cmd])).
  destruct (LiftoverFacts.report_unmapped_spec unmapped_bed w1) as (report & Hrun & Hyes & Hno).
  exists report. split; [|done].
  unfold Liftover.run_liftover. apply Steps.try_ok.
  rewrite Steps.bind_unfold, Steps.print_unfold.
  erewrite Steps.bind_ok by (by eapply Steps.run_exit0).
  rewrite Steps.bind_unfold, Steps.print_unfold. cbn [fs stdout spawned].
  rewrite <- app_assoc. fold cmd. change (?a ++ [?x] ++ [?y]) with (a ++ [x; y]). 
  fold w1. rewrite Hrun. unfold w1. cbn [fs stdout spawned].
  by rewrite <- app_assoc.
Qed.

(** The theorem on a liftOver run that leaves an empty unmapped file. *)
Lemma C6_unmapped_report_witness :
  exists report,
    Liftover.run_liftover Sample.env (py "hg38.bed") (py "a.chain") (py "a.bed") (py "a_unmapped.bed")
      Sample.start
    = (Ok tt,
       World (<[py "a_unmapped.bed" := File []]> Sample.disk)
         [ py "Running liftOver for chain file: a.chain";
           py "Successfully generated lifted-over BED file: a.bed";
           report ]
         [Liftover.liftover_command (py "hg38.bed") (py "a.chain") (py "a.bed") (py "a_unmapped.bed")])
    /\ report = Liftover.msg_none_unmapped.
Proof.
  destruct (C6_unmapped_report Sample.env (py "hg38.bed") (py "a.chain") (py "a.bed")
              (py "a_unmapped.bed") Sample.start [] []
              (<[py "a_unmapped.bed" := File []]> Sample.disk))
    as (report & Hrun & _ & Hnone).
  - vm_compute. reflexivity.
  - exists report. split; [exact Hrun|].
    apply Hnone. intros (n & Hn & Hsize).
    rewrite lookup_insert_eq in Hn. injection Hn as <-. vm_compute in Hsize. discriminate.
Defined.

Module ConverterFacts.
Section WithEnvironment.
Import Liftover Converter.
Variable E : environment.

Lemma run_paf2liftover_failed (paf_file chain_file : str) (w : world)
    (o : proc_outcome) (f : gmap (list N) node) :
  spawn E (length (spawned w)) (paf2liftover_command paf_file chain_file) (fs w) = o ->
  converter_failed o w f ->
  run_paf2liftover E paf_file chain_file w
  = (Ok tt,
     World f (stdout w ++ msg_running paf_file :: failure_lines E paf_file chain_file o)
       (spawned w ++ [paf2liftover_command paf_file chain_file])).
Proof.
  intros Hspawn Hfail. unfold run_paf2liftover.
  destruct o as [rc out err f'| |]; simpl in Hfail; [destruct Hfail as [Hrc ->]|subst f|done].
  - unfold try_except. rewrite Steps.bind_unfold, Steps.print_unfold.
    erewrite Steps.bind_raise by (by apply Steps.run_nonzero).
    cbv beta iota.
    repeat (progress (rewrite ?Steps.bind_unfold, ?Steps.print_unfold; cbv beta iota)).
    cbn [fs stdout spawned from_option fst snd str_exn failure_lines].
    unfold msg_running.
    rewrite <- !app_assoc. reflexivity.
  - unfold try_except. rewrite Steps.bind_unfold, Steps.print_unfold.
    erewrite Steps.bind_raise by (by apply Steps.run_missing).
    cbv beta iota.
    rewrite Steps.print_unfold. cbn [fs stdout spawned failure_lines].
    unfold msg_running. rewrite <- !app_assoc. reflexivity.
Qed.

Lemma liftover_if_chain_absent (bed chain_file lifted unmapped name : str) (w : world) :
  fs w !! chain_file = None ->
  liftover_if_chain E bed chain_file lifted unmapped name w
  = (Ok tt, World (fs w) (stdout w ++ [msg_skipping name]) (spawned w)).
Proof.
  intros Habs. unfold liftover_if_chain, OS.exists_.
  rewrite Steps.bind_unfold, Habs.
  rewrite bool_decide_eq_false_2 by (by intros [? ?]).
  reflexivity.
Qed.

Lemma run_paf2liftover_success (paf_file chain_file : str) (w : world)
    (out err raw : str) (f : gmap (list N) node) :
  spawn E (length (spawned w)) (paf2liftover_command paf_file chain_file) (fs w)
  = Exited 0 out err f ->
  f !! tmp_of chain_file = Some (File raw) ->
  (forall entries size, f !! chain_file <> Some (Dir entries size)) ->
  run_paf2liftover E paf_file chain_file w
  = (Ok tt,
     World (delete (tmp_of chain_file) (<[chain_file := File (ChainFilter.filter_file raw)]> f))
       (stdout w ++ [ msg_running paf_file;
                      py "Successfully generated filtered chain file: " ++ chain_file ])
       (spawned w ++ [paf2liftover_command paf_file chain_file])).
Proof.
  intros Hspawn Htmp Hchain. unfold run_paf2liftover. apply Steps.try_ok.
  rewrite Steps.bind_unfold, Steps.print_unfold.
  erewrite Steps.bind_ok by (by eapply Steps.run_exit0).
  rewrite Steps.bind_unfold. unfold OS.open_read at 1. cbn [fs stdout spawned].
  rewrite Htmp.
  rewrite Steps.bind_unfold. unfold OS.open_write at 1. cbn [fs stdout spawned].
  assert (Hw : forall A (x y : A),
             match f !! chain_file with Some (Dir _ _) => x | _ => y end = y).
  { intros A x y. destruct (f !! chain_file) as [[|entries size]|] eqn:Heq; try done.
    by destruct (Hchain entries size). }
  rewrite Hw.
  rewrite Steps.bind_unfold. unfold OS.close_written at 1, set_fs. cbn [fs stdout spawned].
  rewrite insert_insert_eq.
  rewrite Steps.bind_unfold. unfold OS.remove at 1, set_fs. cbn [fs stdout spawned].
  rewrite lookup_insert_ne by (symmetry; apply LiftoverFacts.tmp_of_ne).
  rewrite Htmp. rewrite Steps.print_unfold. cbn [fs stdout spawned].
  rewrite <- app_assoc. reflexivity.
Qed.

End WithEnvironment.
End ConverterFacts.

Module FrameFacts.
Section WithEnvironment.
Import Liftover Table.
Variable E : environment.

Lemma missing_nil (df : DataFrame) (chrom start stop : list cell) :
  Frame.column df (py "Chromosome") = Some chrom ->
  Frame.column df (py "Start") = Some start ->
  Frame.column df (py "End") = Some stop ->
  Frame.missing df required_columns = [].
Proof.
  intros Hc Hs He. unfold Frame.missing, required_columns.
  rewrite !filter_cons, filter_nil, Hc, Hs, He.
  rewrite !decide_False by done. reflexivity.
Qed.

Lemma missing_cons (df : DataFrame) (name : str) :
  name ∈ required_columns -> Frame.column df name = None ->
  Frame.missing df required_columns <> [].
Proof.
  intros Hin Hnone Hnil.
  assert (H : name ∈ Frame.missing df required_columns)
    by (by apply list_elem_of_filter).
  rewrite Hnil in H. by apply elem_of_nil in H.
Qed.

Lemma bed_frame_ok (df : DataFrame) (chrom start stop : list cell) (w : world) :
  Frame.column df (py "Chromosome") = Some chrom ->
  Frame.column df (py "Start") = Some start ->
  Frame.column df (py "End") = Some stop ->
  bed_frame df w
  = (Ok [ (py "Chromosome", map chr_cell chrom); (py "Start", start); (py "End", stop) ], w).
Proof.
  intros Hc Hs He. unfold bed_frame, getitem.
  rewrite (missing_nil df chrom start stop) by done.
  rewrite Steps.bind_unfold. unfold mret, M_ret, ret at 1. cbv beta iota.
  unfold Frame.select, required_columns. cbn [omap list_omap]. rewrite Hc, Hs, He.
  reflexivity.
Qed.

Lemma bed_frame_missing (df : DataFrame) (name : str) (w : world) :
  name ∈ required_columns -> Frame.column df name = None ->
  bed_frame df w = (Raise (KeyError (Frame.missing df required_columns)), w).
Proof.
  intros Hin Hnone. unfold bed_frame, getitem.
  pose proof (missing_cons df name Hin Hnone) as Hm.
  destruct (Frame.missing df required_columns) as [|m ms]; [done|].
  reflexivity.
Qed.

Lemma lookup_map {A B} (g : A -> B) (l : list A) (i : nat) :
  map g l !! i = g <$> (l !! i).
Proof. revert i. induction l as [|x l IH]; intros [|i]; simpl; auto. Qed.

Lemma rows_bed (chrom start stop : list cell) :
  Frame.rows [ (py "Chromosome", chrom); (py "Start", start); (py "End", stop) ]
  = zip_with cons chrom (zip_with cons start (zip_with cons stop (replicate (length chrom) []))).
Proof. reflexivity. Qed.

Lemma rows_bed_length (chrom start stop : list cell) :
  length start = length chrom -> length stop = length chrom ->
  length (Frame.rows [ (py "Chromosome", chrom); (py "Start", start); (py "End", stop) ])
  = length chrom.
Proof.
  intros Hs He. rewrite rows_bed, !length_zip_with, length_replicate. lia.
Qed.

Lemma rows_bed_lookup (chrom start stop : list cell) (i : nat) (c s e : cell) :
  length stop = length chrom ->
  chrom !! i = Some c -> start !! i = Some s -> stop !! i = Some e ->
  Frame.rows [ (py "Chromosome", chrom); (py "Start", start); (py "End", stop) ] !! i
  = Some [c; s; e].
Proof.
  intros Hlen Hc Hs He. rewrite rows_bed, !lookup_zip_with, Hc, Hs, He.
  rewrite lookup_replicate_2 by (by eapply lookup_lt_Some).
  reflexivity.
Qed.

Lemma to_csv_ok (df : DataFrame) (path : str) (w : world) :
  (forall entries size, fs w !! path <> Some (Dir entries size)) ->
  to_csv df path w
  = (Ok tt, World (<[path := File (Frame.to_csv_text TAB df)]> (fs w)) (stdout w) (spawned w)).
Proof.
  intros Hpath. unfold to_csv. rewrite Steps.bind_unfold.
  unfold OS.open_write, OS.close_written, set_fs.
  destruct (fs w !! path) as [[|entries size]|] eqn:Heq;
    try (by destruct (Hpath entries size));
    cbn [fs stdout spawned]; by rewrite insert_insert_eq.
Qed.

Lemma read_csv_ok (path raw : str) (df : DataFrame) (w : world) :
  fs w !! path = Some (File raw) -> parse_table E raw = Some df ->
  read_csv E path w = (Ok df, w).
Proof.
  intros Hfile Hparse. unfold read_csv. rewrite Steps.bind_unfold.
  unfold OS.open_read. by rewrite Hfile, Hparse.
Qed.

Lemma read_csv_missing (path : str) (w : world) :
  fs w !! path = None -> read_csv E path w = (Raise FileNotFoundError, w).
Proof.
  intros Hfile. unfold read_csv. rewrite Steps.bind_unfold.
  unfold OS.open_read. by rewrite Hfile.
Qed.

Lemma create_missing_file (tsv out : str) (w : world) :
  fs w !! tsv = None ->
  create_hg38_bed E tsv out w
  = (Ok None, World (fs w) (stdout w ++ [msg_tsv_not_found tsv]) (spawned w)).
Proof.
  intros Hfile. unfold create_hg38_bed, try_except.
  erewrite Steps.bind_raise by (by apply read_csv_missing).
  cbv beta iota. rewrite Steps.bind_unfold, Steps.print_unfold. reflexivity.
Qed.

Lemma create_missing_column (tsv out raw : str) (df : DataFrame) (name : str) (w : world) :
  fs w !! tsv = Some (File raw) -> parse_table E raw = Some df ->
  name ∈ required_columns -> Frame.column df name = None ->
  create_hg38_bed E tsv out w
  = (Ok None,
     World (fs w)
       (stdout w ++ [msg_column_not_found E (Frame.missing df required_columns)])
       (spawned w)).
Proof.
  intros Hfile Hparse Hin Hnone. unfold create_hg38_bed, try_except.
  erewrite Steps.bind_ok by (by eapply read_csv_ok).
  erewrite Steps.bind_raise by (by eapply bed_frame_missing).
  cbv beta iota. rewrite Steps.bind_unfold, Steps.print_unfold. reflexivity.
Qed.

Lemma create_ok (tsv out raw : str) (df : DataFrame) (chrom start stop : list cell)
    (w : world) :
  fs w !! tsv = Some (File raw) -> parse_table E raw = Some df ->
  Frame.column df (py "Chromosome") = Some chrom ->
  Frame.column df (py "Start") = Some start ->
  Frame.column df (py "End") = Some stop ->
  (forall entries size, fs w !! out <> Some (Dir entries size)) ->
  create_hg38_bed E tsv out w
  = (Ok (Some out),
     World
       (<[out := File (Frame.to_csv_text TAB
                   [ (py "Chromosome", map chr_cell chrom);
                     (py "Start", start); (py "End", stop) ])]> (fs w))
       (stdout w ++ [msg_created out]) (spawned w)).
Proof.
  intros Hfile Hparse Hc Hs He Hout. unfold create_hg38_bed. apply Steps.try_ok.
  erewrite Steps.bind_ok by (by eapply read_csv_ok).
  erewrite Steps.bind_ok by (by eapply bed_frame_ok).
  erewrite Steps.bind_ok by (by eapply to_csv_ok).
  rewrite Steps.bind_unfold, Steps.print_unfold. reflexivity.
Qed.

End WithEnvironment.
End FrameFacts.

(** C3.  For a loci table whose row [i] has Chromosome "1", Start 1000 and
    End 2000, [create_hg38_bed] writes a file of one line per table row,
    with no header line before them, and line [i] is exactly the three
    tab-separated fields chr1, 1000, 2000 followed by the line break. *)
Theorem C3_interval_line (E : environment) (tsv out : str) (w : world)
    (raw : str) (df : DataFrame) (chrom start stop : list cell) (i : nat) (c : cell) :
  fs w !! tsv = Some (File raw) ->
  parse_table E raw = Some df ->
  (forall entries size, fs w !! out <> Some (Dir entries size)) ->
  Frame.column df (py "Chromosome") = Some chrom ->
  Frame.column df (py "Start") = Some start ->
  Frame.column df (py "End") = Some stop ->
  length start = length chrom ->
  length stop = length chrom ->
  chrom !! i = Some c ->
  Frame.astype_str c = py "1" ->
  start !! i = Some (IntCell 1000) ->
  stop !! i = Some (IntCell 2000) ->
  exists (lines : list str) (w' : world),
    Liftover.create_hg38_bed E tsv out w = (Ok (Some out), w')
    /\ fs w' !! out = Some (File (concat lines))
    /\ length lines = length chrom
    /\ lines !! i = Some (py "chr1" ++ TAB :: py "1000" ++ TAB :: py "2000" ++ [LF]).
Proof.
  intros Hfile Hparse Hout Hc Hs He Hls Hle Hci Hone Hsi Hei.
  set (bed := [ (py "Chromosome", map Table.chr_cell chrom);
                (py "Start", start); (py "End", stop) ]).
  exists (map (Frame.csv_line TAB) (Frame.rows bed)). eexists.
  split; [by eapply FrameFacts.create_ok|]. cbn [fs].
  split; [by rewrite lookup_insert_eq|].
  split.
  - rewrite length_map. unfold bed.
    rewrite FrameFacts.rows_bed_length; rewrite ?length_map; done.
  - rewrite FrameFacts.lookup_map. unfold bed.
    erewrite FrameFacts.rows_bed_lookup; [|by rewrite length_map| |done..].
    2:{ rewrite FrameFacts.lookup_map, Hci. reflexivity. }
    unfold Table.chr_cell. rewrite Hone. reflexivity.
Qed.

(** The theorem on the sample table of one row. *)
Lemma C3_interval_line_witness :
  exists (lines : list str) (w' : world),
    Liftover.create_hg38_bed Sample.env (py "loci.tsv") (py "hg38.bed") Sample.start
    = (Ok (Some (py "hg38.bed")), w')
    /\ fs w' !! py "hg38.bed" = Some (File (concat lines))
    /\ length lines = 1%nat
    /\ lines !! 0%nat = Some (py "chr1" ++ TAB :: py "1000" ++ TAB :: py "2000" ++ [LF]).
Proof.
  apply (C3_interval_line Sample.env (py "loci.tsv") (py "hg38.bed") Sample.start
           (py "table") Sample.loci [IntCell 1] [IntCell 1000] [IntCell 2000] 0 (IntCell 1));
    try (vm_compute; reflexivity).
  intros entries size. vm_compute. discriminate.
Defined.

(** C8.  [create_hg38_bed] returns [None], prints one error line and
    leaves the file system as it was when the loci table file is missing,
    and when the table lacks one of the columns Chromosome, Start, End; when
    the table is read and has the three columns it returns the output path
    it was given, after writing that file. *)
Theorem C8_create_hg38_bed_results (E : environment) (tsv out : str) (w : world) :
  (fs w !! tsv = None ->
   Liftover.create_hg38_bed E tsv out w
   = (Ok None, World (fs w) (stdout w ++ [Table.msg_tsv_not_found tsv]) (spawned w)))
  /\ (forall raw df name,
        fs w !! tsv = Some (File raw) -> parse_table E raw = Some df ->
        name ∈ Liftover.required_columns -> Frame.column df name = None ->
        Liftover.create_hg38_bed E tsv out w
        = (Ok None,
           World (fs w)
             (stdout w ++ [Table.msg_column_not_found E
                             (Frame.missing df Liftover.required_columns)])
             (spawned w)))
  /\ (forall raw df,
        fs w !! tsv = Some (File raw) -> parse_table E raw = Some df ->
        (forall name, name ∈ Liftover.required_columns -> is_Some (Frame.column df name)) ->
        (forall entries size, fs w !! out <> Some (Dir entries size)) ->
        exists text,
          Liftover.create_hg38_bed E tsv out w
          = (Ok (Some out),
             World (<[out := File text]> (fs w))
               (stdout w ++ [Table.msg_created out]) (spawned w))).
Proof.
  split; [apply FrameFacts.create_missing_file|].
  split; [intros raw df name; apply FrameFacts.create_missing_column|].
  intros raw df Hfile Hparse Hcols Hout.
  destruct (Hcols (py "Chromosome")) as [chrom Hc]; [set_solver|].
  destruct (Hcols (py "Start")) as [start Hs]; [set_solver|].
  destruct (Hcols (py "End")) as [stop He]; [set_solver|].
  eexists. by eapply FrameFacts.create_ok.
Qed.

(** The three cases on the sample disk. *)
Lemma C8_create_hg38_bed_results_witness :
  Liftover.create_hg38_bed Sample.env (py "nowhere.tsv") (py "hg38.bed") Sample.start
  = (Ok None,
     World Sample.disk [py "Error: Imprinted loci TSV file not found: nowhere.tsv"] [])
  /\ fst (Liftover.create_hg38_bed Sample.env (py "short.tsv") (py "hg38.bed") Sample.start)
     = Ok None
  /\ fst (Liftover.create_hg38_bed Sample.env (py "loci.tsv") (py "hg38.bed") Sample.start)
     = Ok (Some (py "hg38.bed")).
Proof.
  split; [|split].
  - apply (C8_create_hg38_bed_results Sample.env (py "nowhere.tsv") (py "hg38.bed") Sample.start).
    vm_compute. reflexivity.
  - destruct (C8_create_hg38_bed_results Sample.env (py "short.tsv") (py "hg38.bed") Sample.start)
      as (_ & Hcol & _).
    rewrite (Hcol (py "short") Sample.loci_without_end (py "End")); try (vm_compute; reflexivity).
    unfold Liftover.required_columns. set_solver.
  - destruct (C8_create_hg38_bed_results Sample.env (py "loci.tsv") (py "hg38.bed") Sample.start)
      as (_ & _ & Hok).
    destruct (Hok (py "table") Sample.loci) as [text ->].
    + vm_compute. reflexivity.
    + vm_compute. reflexivity.
    + intros name Hname. unfold Liftover.required_columns in Hname.
      repeat (apply elem_of_cons in Hname as [->|Hname]); try (vm_compute; eauto).
      by apply elem_of_nil in Hname.
    + intros entries size. vm_compute. discriminate.
    + reflexivity.
Defined.

Module AlignFacts.
Section WithEnvironment.
Import Align Trace.
Variable E : environment.

Lemma run_minimap2_isolated (target query output : str) (w : world) :
  handled (spawn E (length (spawned w)) (minimap2_command target query output) (fs w)) ->
  exists w',
    run_minimap2 E target query output w = (Ok tt, w')
    /\ spawned w' = spawned w ++ [minimap2_command target query output].
Proof.
  intros Hh. unfold run_minimap2, try_except.
  rewrite Steps.bind_unfold, Steps.print_unfold. cbv beta iota.
  rewrite Steps.bind_unfold. unfold subprocess_run at 1. cbn [fs stdout spawned].
  destruct (spawn E _ _ _) as [rc out err f| |] eqn:Hspawn; [| |done].
  - destruct (rc =? 0)%Z; cbv beta iota; rewrite Steps.print_unfold; eauto.
  - cbv beta iota. rewrite Steps.print_unfold. eauto.
Qed.

Lemma align_file_isolated (target input_dir output_dir filename : str) (w : world) :
  handled (spawn E (length (spawned w))
             (command_for target input_dir output_dir filename) (fs w)) ->
  exists w',
    align_file E target input_dir output_dir filename w = (Ok tt, w')
    /\ spawned w'
       = spawned w ++ (if is_sequence_file filename
                       then [command_for target input_dir output_dir filename] else []).
Proof.
  intros Hh. unfold align_file. destruct (is_sequence_file filename).
  - rewrite Steps.bind_unfold, Steps.print_unfold. cbv beta iota.
    rewrite Steps.bind_unfold.
    destruct (run_minimap2_isolated target (query_fasta_path input_dir filename)
                (output_paf_path output_dir filename)
                (World (fs w) (stdout w ++ [py "Aligning '" ++ filename ++ py "'..."])
                   (spawned w)) Hh) as (w' & -> & Hw').
    rewrite Steps.print_unfold. eexists. split; [reflexivity|]. exact Hw'.
  - exists w. split; [done|]. by rewrite app_nil_r.
Qed.

Lemma loop_isolated (target input_dir output_dir : str) (names : list str) (w : world) :
  (forall n filename f,
      handled (spawn E n (command_for target input_dir output_dir filename) f)) ->
  exists w',
    for_each names (align_file E target input_dir output_dir) w = (Ok tt, w')
    /\ spawned w'
       = spawned w ++ map (command_for target input_dir output_dir)
                        (filter is_sequence_file names).
Proof.
  intros Hh. revert w. induction names as [|name names IH]; intros w.
  - exists w. split; [done|]. by rewrite app_nil_r.
  - cbn [for_each]. rewrite Steps.bind_unfold.
    destruct (align_file_isolated target input_dir output_dir name w (Hh _ _ _))
      as (w1 & -> & Hw1).
    destruct (IH w1) as (w2 & -> & Hw2).
    exists w2. split; [done|]. rewrite Hw2, Hw1, filter_cons.
    destruct (is_sequence_file name); simpl; by rewrite <- app_assoc.
Qed.

Lemma join_inj (dir a b : str) :
  Str.startswith a [SLASH] = false -> Str.startswith b [SLASH] = false ->
  Path.join dir a = Path.join dir b -> a = b.
Proof.
  intros Ha Hb. unfold Path.join. rewrite Ha, Hb.
  destruct (negb (Str.truthy dir) || Str.endswith dir [SLASH]); intros H.
  - by apply app_inv_head in H.
  - apply app_inv_head in H. by injection H.
Qed.

Lemma command_for_inj (target input_dir output_dir a b : str) :
  Str.startswith a [SLASH] = false -> Str.startswith b [SLASH] = false ->
  command_for target input_dir output_dir a = command_for target input_dir output_dir b ->
  a = b.
Proof.
  intros Ha Hb H. unfold command_for, minimap2_command, query_fasta_path in H.
  injection H as Hq _. by apply join_inj in Hq.
Qed.

Lemma invocations_map (g : str -> list str) (names : list str) (name : str) :
  NoDup names ->
  (forall other, other ∈ names -> g other = g name -> other = name) ->
  invocations (g name) (map g names) = if decide (name ∈ names) then 1%nat else 0%nat.
Proof.
  unfold invocations. induction names as [|x names IH]; intros Hnd Hinj.
  - by rewrite decide_False by apply not_elem_of_nil.
  - apply NoDup_cons in Hnd as [Hx Hnd].
    change (map g (x :: names)) with (g x :: map g names). rewrite filter_cons.
    assert (IH' := IH Hnd (fun o Ho => Hinj o (list_elem_of_further _ _ _ Ho))).
    destruct (decide (g x = g name)) as [Heq|Hne]; cbn [length]; rewrite IH'.
    + apply Hinj in Heq as ->; [|by left].
      rewrite decide_False by done. rewrite decide_True by by left. done.
    + destruct (decide (name ∈ names)) as [Hin|Hnin].
      * rewrite decide_True by by right. done.
      * rewrite decide_False; [done|]. intros [->|?]%elem_of_cons; done.
Qed.

End WithEnvironment.
End AlignFacts.

(** C4.  Whatever the aligner does on each file (exit with any status, or
    be missing), [process_directories] gives [subprocess.run] one command
    per entry of the directory whose name ends in .fasta, .fa or .fna, in
    listing order, and none for the other entries: a failure on one file
    changes nothing for the others.  With distinct entry names each
    sequence file has exactly one invocation and every other entry none. *)
Theorem C4_one_invocation_per_sequence_file (E : environment)
    (target_fasta input_dir output_dir : str) (w : world)
    (entries : list str) (size : N) :
  fs w !! input_dir = Some (Dir entries size) ->
  (forall content, fs w !! output_dir <> Some (File content)) ->
  (forall n filename f,
      spawn E n (Align.command_for target_fasta input_dir output_dir filename) f
      <> SpawnFailed) ->
  exists w',
    Align.process_directories E target_fasta input_dir output_dir w = (Ok tt, w')
    /\ spawned w'
       = spawned w ++ map (Align.command_for target_fasta input_dir output_dir)
                        (filter Align.is_sequence_file entries)
    /\ (NoDup entries ->
        Forall (fun name => Str.startswith name [SLASH] = false) entries ->
        forall name, name ∈ entries ->
          Trace.invocations (Align.command_for target_fasta input_dir output_dir name)
            (drop (length (spawned w)) (spawned w'))
          = if Align.is_sequence_file name then 1%nat else 0%nat).
Proof.
  intros Hin Hout Hh.
  assert (Hloop : forall w0, fs w0 !! input_dir = Some (Dir entries size) ->
            exists w',
              (names ← OS.listdir input_dir;
               for_each names (Align.align_file E target_fasta input_dir output_dir)) w0
              = (Ok tt, w')
              /\ spawned w'
                 = spawned w0 ++ map (Align.command_for target_fasta input_dir output_dir)
                                   (filter Align.is_sequence_file entries)).
  { intros w0 Hw0. rewrite Steps.bind_unfold. unfold OS.listdir. rewrite Hw0.
    apply AlignFacts.loop_isolated. exact Hh. }
  assert (Hrun : exists w',
            Align.process_directories E target_fasta input_dir output_dir w = (Ok tt, w')
            /\ spawned w'
               = spawned w ++ map (Align.command_for target_fasta input_dir output_dir)
                                (filter Align.is_sequence_file entries)).
  { unfold Align.process_directories. rewrite Steps.bind_unfold.
    unfold OS.isdir. rewrite Hin. cbv beta iota. cbn [negb].
    rewrite Steps.bind_unfold. unfold OS.makedirs, set_fs.
    destruct (fs w !! output_dir) as [[content|es sz]|] eqn:Hod.
    - by destruct (Hout content).
    - rewrite !Steps.bind_unfold, !Steps.print_unfold. cbv beta iota.
      rewrite Steps.bind_unfold, Steps.print_unfold. cbv beta iota.
      apply (Hloop (World _ _ _)). exact Hin.
    - rewrite !Steps.bind_unfold, !Steps.print_unfold. cbv beta iota.
      rewrite Steps.bind_unfold, Steps.print_unfold. cbv beta iota.
      apply (Hloop (World _ _ _)). cbn [fs].
      rewrite lookup_insert_ne; [done|]. intros ->. congruence. }
  destruct Hrun as (w' & Hrun & Htrace). exists w'. split; [done|]. split; [done|].
  intros Hnd Hslash name Hname. rewrite Htrace, drop_app_length.
  rewrite (AlignFacts.invocations_map
             (Align.command_for target_fasta input_dir output_dir)
             (filter Align.is_sequence_file entries) name).
  - destruct (Align.is_sequence_file name) eqn:Hseq.
    + rewrite decide_True; [done|]. apply list_elem_of_filter. by rewrite Hseq.
    + rewrite decide_False; [done|]. intros [Hs _]%list_elem_of_filter. by rewrite Hseq in Hs.
  - by apply NoDup_filter.
  - intros other [_ Hother]%list_elem_of_filter Heq.
    rewrite Forall_forall in Hslash.
    eapply AlignFacts.command_for_inj; [| |exact Heq]; by apply Hslash.
Qed.

(** The theorem on a directory of three sequence files and one text file,
    where the aligner is missing for the second file and fails on the
    third. *)
Lemma C4_one_invocation_per_sequence_file_witness :
  exists w',
    Align.process_directories Sample.env (py "hg38.fa") (py "in") (py "out") Sample.start
    = (Ok tt, w')
    /\ spawned w'
       = map (Align.command_for (py "hg38.fa") (py "in") (py "out"))
           [py "a.fasta"; py "b.fa"; py "c.fna"].
Proof.
  destruct (C4_one_invocation_per_sequence_file Sample.env (py "hg38.fa") (py "in") (py "out")
              Sample.start [py "a.fasta"; py "b.fa"; py "notes.txt"; py "c.fna"] 4096)
    as (w' & Hrun & Htrace & _).
  - vm_compute. reflexivity.
  - intros content. vm_compute. discriminate.
  - intros n filename f. unfold Sample.env, spawn, Sample.tools, Align.command_for,
      Align.minimap2_command.
    rewrite bool_decide_eq_true_2 by reflexivity.
    repeat case_bool_decide; discriminate.
  - exists w'. split; [exact Hrun|]. rewrite Htrace. reflexivity.
Defined.

(** [process_paf_directory] has no guard on its directory. *)
Lemma process_paf_directory_missing (E : environment)
    (paf_dir output_bed_dir unmapped_bed_dir hg38_bed_file : str) (w : world) :
  fs w !! paf_dir = None ->
  Liftover.process_paf_directory E paf_dir output_bed_dir unmapped_bed_dir hg38_bed_file w
  = (Raise FileNotFoundError, w).
Proof.
  intros Habs. unfold Liftover.process_paf_directory.
  rewrite Steps.bind_unfold. unfold OS.listdir. by rewrite Habs.
Qed.

(** C5.  Program 2 on a [paf_dir] that does not exist: the loci table is
    read and the interval file written, then [os.listdir] raises
    [FileNotFoundError], no handler catches it and the run ends with that
    exception, the interval file left behind.  Program 1 on the same
    missing directory prints an error and returns. *)
Theorem C5_missing_paf_dir_raises :
  fst (Liftover.main Sample.env (py "pafs") (py "out") (py "unmapped") (py "loci.tsv")
         Sample.start)
  = Raise FileNotFoundError
  /\ fs (snd (Liftover.main Sample.env (py "pafs") (py "out") (py "unmapped") (py "loci.tsv")
                Sample.start))
     !! py "/work/hg38_imprinted_loci.bed"
     = Some (File (py "chr1" ++ TAB :: py "1000" ++ TAB :: py "2000" ++ [LF]))
  /\ Align.main Sample.env (py "hg38.fa") (py "pafs") (py "out") Sample.start
     = (Ok tt,
        World Sample.disk [py "Error: Input directory 'pafs' does not exist."] []).
Proof.
  split; [vm_compute; reflexivity|]. split; vm_compute; reflexivity.
Qed.

(** C7.  When the chain converter exits with a non-zero status or its
    binary is missing, [run_paf2liftover] returns normally, prints the error
    (with the captured standard output and standard error after a non-zero
    exit) and writes nothing: the file system is the one the converter
    left.  When the chain file is absent from it, the loop body of
    [process_paf_directory] prints that liftOver is skipped and starts no
    further process. *)
Theorem C7_converter_failure (E : environment) (paf_file chain_file : str) (w : world)
    (o : proc_outcome) (f : gmap (list N) node) :
  spawn E (length (spawned w)) (Liftover.paf2liftover_command paf_file chain_file) (fs w) = o ->
  Converter.converter_failed o w f ->
  Liftover.run_paf2liftover E paf_file chain_file w
  = (Ok tt,
     World f
       (stdout w ++ Converter.msg_running paf_file
                    :: Converter.failure_lines E paf_file chain_file o)
       (spawned w ++ [Liftover.paf2liftover_command paf_file chain_file]))
  /\ (forall paf_dir output_bed_dir unmapped_bed_dir hg38_bed_file filename : str,
        Str.endswith filename (py ".paf") = true ->
        paf_file = Path.join paf_dir filename ->
        chain_file = Liftover.chain_path output_bed_dir filename ->
        f !! chain_file = None ->
        Liftover.process_paf_file E paf_dir output_bed_dir unmapped_bed_dir hg38_bed_file
          filename w
        = (Ok tt,
           World f
             (stdout w ++ Converter.msg_running paf_file
                          :: Converter.failure_lines E paf_file chain_file o
                          ++ [Converter.msg_skipping (Liftover.assembly_name filename)])
             (spawned w ++ [Liftover.paf2liftover_command paf_file chain_file]))).
Proof.
  intros Hspawn Hfail.
  pose proof (ConverterFacts.run_paf2liftover_failed E paf_file chain_file w o f Hspawn Hfail)
    as Hrun.
  split; [exact Hrun|].
  intros paf_dir obd ubd bed filename Hext Hpaf Hchain Habs.
  unfold Liftover.process_paf_file. rewrite Hext, <- Hpaf, <- Hchain.
  erewrite Steps.bind_ok by exact Hrun.
  rewrite ConverterFacts.liftover_if_chain_absent by exact Habs.
  cbn [fs stdout spawned]. by rewrite <- app_assoc.
Qed.

(** The theorem with a converter that exits with status 2. *)
Lemma C7_converter_failure_witness :
  Liftover.process_paf_file Sample.env_broken (py "pafs") (py "out") (py "unmapped")
    (py "hg38.bed") (py "a.paf") Sample.start
  = (Ok tt,
     World Sample.disk
       [ py "Running paf2liftover.py (best-only) for: pafs/a.paf";
         py "Error running paf2liftover.py: non-zero exit";
         py "Stdout: out";
         py "Stderr: err";
         py "Chain file not generated for a. Skipping liftOver." ]
       [ Liftover.paf2liftover_command (py "pafs/a.paf") (py "out/a_to_hg38.chain") ]).
Proof.
  apply (C7_converter_failure Sample.env_broken (py "pafs/a.paf") (py "out/a_to_hg38.chain")
           Sample.start (Exited 2 (py "out") (py "err") Sample.disk) Sample.disk);
    try reflexivity.
  split; [discriminate|reflexivity].
Defined.

(** C9.  On the success path of [run_paf2liftover] (the converter exited
    with status 0, its temporary output can be read and the chain path can
    be written) the function returns normally, the temporary file is gone,
    the chain file holds the filtered text and no other path changed. *)
Theorem C9_tmp_removed (E : environment) (paf_file chain_file : str) (w : world)
    (out err raw : str) (f : gmap (list N) node) :
  spawn E (length (spawned w)) (Liftover.paf2liftover_command paf_file chain_file) (fs w)
  = Exited 0 out err f ->
  f !! Liftover.tmp_of chain_file = Some (File raw) ->
  (forall entries size, f !! chain_file <> Some (Dir entries size)) ->
  exists w',
    Liftover.run_paf2liftover E paf_file chain_file w = (Ok tt, w')
    /\ fs w' !! Liftover.tmp_of chain_file = None
    /\ fs w' !! chain_file = Some (File (ChainFilter.filter_file raw))
    /\ (forall p, p <> Liftover.tmp_of chain_file -> p <> chain_file -> fs w' !! p = f !! p)
    /\ last (stdout w') = Some (py "Successfully generated filtered chain file: " ++ chain_file).
Proof.
  intros Hspawn Htmp Hchain. eexists.
  split; [by eapply ConverterFacts.run_paf2liftover_success|]. cbn [fs stdout].
  split; [apply lookup_delete_eq|].
  split.
  { rewrite lookup_delete_ne by apply LiftoverFacts.tmp_of_ne. apply lookup_insert_eq. }
  split.
  { intros p Hp1 Hp2. rewrite lookup_delete_ne by done. by rewrite lookup_insert_ne. }
  by rewrite last_app.
Qed.

(** The theorem with a converter that writes the sample temporary file. *)
Lemma C9_tmp_removed_witness :
  exists w',
    Liftover.run_paf2liftover Sample.env (py "pafs/a.paf") (py "out/a_to_hg38.chain") Sample.start
    = (Ok tt, w')
    /\ fs w' !! py "out/a_to_hg38.chain.tmp" = None
    /\ fs w' !! py "out/a_to_hg38.chain" = Some (File (Sample.record13 ++ Sample.record13)).
Proof.
  destruct (C9_tmp_removed Sample.env (py "pafs/a.paf") (py "out/a_to_hg38.chain") Sample.start
              [] [] Sample.tmp_text
              (<[py "out/a_to_hg38.chain.tmp" := File Sample.tmp_text]> Sample.disk))
    as (w' & Hrun & Htmp & Hchain & _).
  - vm_compute. reflexivity.
  - vm_compute. reflexivity.
  - intros entries size. vm_compute. discriminate.
  - exists w'. split; [exact Hrun|]. split; [exact Htmp|]. rewrite Hchain. reflexivity.
Defined.

(** * Further properties of the two programs *)

Module StrFacts.

Lemma split_nonempty (sep : N) (s : str) : Str.split sep s <> [].
Proof.
  destruct s as [|c s]; [done|]. simpl.
  destruct (c =? sep); [done|]. by destruct (Str.split sep s).
Qed.

Lemma split_length (sep : N) (s : str) :
  length (Str.split sep s) = S (Substring.count sep s).
Proof.
  unfold Substring.count. induction s as [|c s IH]; [done|].
  simpl. rewrite filter_cons. destruct (N.eqb_spec c sep) as [->|Hne].
  - rewrite decide_True by done. simpl. by rewrite IH.
  - rewrite decide_False by done.
    pose proof (split_nonempty sep s) as Hs.
    destruct (Str.split sep s) as [|f fs]; [done|]. exact IH.
Qed.

Lemma lstrip_nil (s : str) : Str.lstrip s = [] <-> forallb Str.isspace s = true.
Proof.
  induction s as [|c s IH]; [done|]. simpl.
  destruct (Str.isspace c); simpl; [exact IH|]. split; discriminate.
Qed.

Lemma lstrip_spaces (s : str) :
  forallb Str.isspace (Str.lstrip s) = true -> Str.lstrip s = [].
Proof.
  induction s as [|c s IH]; [done|]. simpl.
  destruct (Str.isspace c) eqn:Hc; [exact IH|]. simpl. by rewrite Hc.
Qed.

Lemma forallb_rev {A} (p : A -> bool) (l : list A) : forallb p (rev l) = forallb p l.
Proof.
  induction l as [|x l IH]; [done|]. simpl.
  rewrite forallb_app, IH. simpl. rewrite andb_true_r. apply andb_comm.
Qed.

Lemma strip_nil (s : str) : Str.strip s = [] <-> forallb Str.isspace s = true.
Proof.
  unfold Str.strip, Str.rstrip. rewrite <- lstrip_nil. split.
  - intros H. apply (f_equal (@rev N)) in H. rewrite rev_involutive in H. simpl in H.
    apply lstrip_nil in H. rewrite forallb_rev in H. by apply lstrip_spaces.
  - intros ->. reflexivity.
Qed.

Lemma forallb_false {A} (p : A -> bool) (l : list A) :
  forallb p l = false -> exists x, x ∈ l /\ p x = false.
Proof.
  induction l as [|x l IH]; [done|]. simpl.
  destruct (p x) eqn:Hx; simpl.
  - intros (y & Hy & Hpy)%IH. exists y. split; [by right|done].
  - intros _. exists x. split; [by left|done].
Qed.

Lemma strip_nonempty (s : str) :
  Str.strip s <> [] <-> exists c, c ∈ s /\ Str.isspace c = false.
Proof.
  rewrite strip_nil. split.
  - intros H. destruct (forallb Str.isspace s) eqn:Hall; [done|].
    by apply forallb_false.
  - intros (c & Hc & Hsp) Hall. rewrite forallb_forall in Hall.
    apply list_elem_of_In in Hc. apply Hall in Hc. congruence.
Qed.

End StrFacts.

(** X1.  A line is copied to the chain file exactly when it does not
    start with ['#'], has a character that is no whitespace, and holds
    exactly twelve tab characters. *)
Theorem X1_keeps_counts_tabs (line : str) :
  ChainFilter.keeps line = true <->
  Str.startswith line (py "#") = false
  /\ (exists c, c ∈ line /\ Str.isspace c = false)
  /\ Substring.count TAB line = 12%nat.
Proof.
  rewrite ChainFilterFacts.keeps_spec, StrFacts.strip_nonempty, StrFacts.split_length.
  intuition lia.
Qed.

(** X2.  The lines of the final chain file are a sub-sequence of the lines
    read from the temporary file: the filter changes no line, adds none and
    keeps their order. *)
Theorem X2_filter_keeps_order (raw : str) :
  TextIO.lines_of (ChainFilter.filter_file raw) `sublist_of` TextIO.lines_of raw.
Proof.
  rewrite ChainFilterFacts.lines_of_filter_file. apply sublist_filter.
Qed.

Module FixedPointFacts.
Import TextIO Lines.

Lemma well_formed_nonempty (ls : list str) :
  well_formed ls -> Forall (fun l => l <> []) ls.
Proof.
  induction ls as [|l ls IH]; [constructor|].
  intros [Hl Hls]. constructor; [|by apply IH].
  destruct Hl as [(body & -> & _)|[[Hne _] _]]; [by destruct body|done].
Qed.

Lemma concat_filter_length (P : str -> Prop) `{!forall l, Decision (P l)} (ls : list str) :
  (length (concat (filter P ls)) <= length (concat ls))%nat.
Proof.
  induction ls as [|l ls IH]; [done|].
  rewrite filter_cons. destruct (decide (P l)); simpl; rewrite !length_app; lia.
Qed.

Lemma concat_filter_all (P : str -> Prop) `{!forall l, Decision (P l)} (ls : list str) :
  Forall (fun l => l <> []) ls ->
  concat (filter P ls) = concat ls -> Forall P ls.
Proof.
  induction ls as [|l ls IH]; [constructor|].
  intros [Hl Hls]%Forall_cons. rewrite filter_cons.
  destruct (decide (P l)) as [HP|HP]; simpl.
  - intros Heq. apply app_inv_head in Heq. constructor; [done|by apply IH].
  - intros Heq. apply (f_equal length) in Heq. rewrite length_app in Heq.
    pose proof (concat_filter_length P ls). destruct l; [done|]. simpl in Heq. lia.
Qed.

Lemma filter_all (P : str -> Prop) `{!forall l, Decision (P l)} (ls : list str) :
  Forall P ls -> filter P ls = ls.
Proof.
  induction 1 as [|l ls HP _ IH]; [done|].
  rewrite filter_cons, decide_True by done. by rewrite IH.
Qed.

End FixedPointFacts.

(** X3.  The filter gives back the text it read (with its line breaks
    turned into ["\n"]) exactly when every line read is one it keeps. *)
Theorem X3_filter_fixed_points (raw : str) :
  ChainFilter.filter_file raw = TextIO.universal_newlines raw
  <-> Forall (fun line => ChainFilter.keeps line = true) (TextIO.lines_of raw).
Proof.
  rewrite ChainFilterFacts.filter_file_written. unfold ChainFilter.written.
  rewrite <- (TextIOFacts.readlines_concat (TextIO.universal_newlines raw)) at 1.
  fold (TextIO.lines_of raw). split.
  - intros H. apply FixedPointFacts.concat_filter_all in H.
    + eapply Forall_impl; [exact H|]. intros l Hl. by apply Is_true_true.
    + apply FixedPointFacts.well_formed_nonempty, TextIOFacts.readlines_well_formed.
  - intros H. rewrite FixedPointFacts.filter_all; [done|].
    eapply Forall_impl; [exact H|]. intros l Hl. by apply Is_true_true.
Qed.

Module EscapesFacts.
Import Escapes.

Lemma ret_raises {A} (P : exn -> Prop) (a : A) : only_raises P (mret a).
Proof. intros w e w' H. discriminate. Qed.

Lemma print_raises (P : exn -> Prop) (line : str) : only_raises P (print line).
Proof. intros w e w' H. discriminate. Qed.

Lemma bind_raises {A B} (P : exn -> Prop) (m : M A) (k : A -> M B) :
  only_raises P m -> (forall a, only_raises P (k a)) -> only_raises P (m ≫= k).
Proof.
  intros Hm Hk w e w'. rewrite Steps.bind_unfold.
  destruct (m w) as [[a|e1] w1] eqn:Hmw.
  - apply Hk.
  - intros [= <- <-]. by eapply Hm.
Qed.

Lemma weaken_raises {A} (P Q : exn -> Prop) (m : M A) :
  (forall e, P e -> Q e) -> only_raises P m -> only_raises Q m.
Proof. intros HPQ Hm w e w' H. eapply HPQ, Hm, H. Qed.

Lemma try_raises {A} (P Q : exn -> Prop) (body : M A) (handler : exn -> option (M A)) :
  only_raises Q body ->
  (forall e, Q e -> match handler e with
                    | Some h => only_raises P h
                    | None => P e
                    end) ->
  only_raises P (try_except body handler).
Proof.
  intros Hbody Hh w e w'. unfold try_except.
  destruct (body w) as [[a|e1] w1] eqn:Hbw; [discriminate|].
  specialize (Hh e1 (Hbody _ _ _ Hbw)).
  destruct (handler e1) as [h|].
  - apply Hh.
  - by intros [= <- <-].
Qed.

Lemma for_each_raises {A} (P : exn -> Prop) (xs : list A) (body : A -> M unit) :
  (forall x, only_raises P (body x)) -> only_raises P (for_each xs body).
Proof.
  intros Hbody. induction xs as [|x xs IH]; [apply ret_raises|].
  apply bind_raises; [apply Hbody|]. intros _. exact IH.
Qed.

(** What the primitives raise. *)

Lemma subprocess_raises (E : environment) (cmd : list str) (capture : bool) :
  only_raises not_key_error (subprocess_run E cmd capture).
Proof.
  intros w e w'. unfold subprocess_run.
  destruct (spawn E _ _ _) as [rc out err f| |]; [destruct (rc =? 0)%Z|..];
    intros [= <- <-]; done.
Qed.

Lemma open_read_raises (p : str) :
  only_raises (fun e => not_key_error e /\ not_process_error e) (OS.open_read p).
Proof.
  intros w e w'. unfold OS.open_read.
  destruct (fs w !! p) as [[|]|]; intros [= <- <-]; done.
Qed.

Lemma open_write_raises (p : str) : only_raises unhandled (OS.open_write p).
Proof.
  intros w e w'. unfold OS.open_write.
  destruct (fs w !! p) as [[|]|]; intros [= <- <-]; done.
Qed.

Lemma close_written_raises (P : exn -> Prop) (p text : str) :
  only_raises P (OS.close_written p text).
Proof. intros w e w' H. discriminate. Qed.

Lemma remove_raises (p : str) :
  only_raises (fun e => not_key_error e /\ not_process_error e) (OS.remove p).
Proof.
  intros w e w'. unfold OS.remove.
  destruct (fs w !! p) as [[|]|]; intros [= <- <-]; done.
Qed.

Lemma exists_raises (P : exn -> Prop) (p : str) : only_raises P (OS.exists_ p).
Proof. intros w e w' H. discriminate. Qed.

Lemma st_size_raises (p : str) :
  only_raises (fun e => not_key_error e /\ not_process_error e) (OS.st_size p).
Proof.
  intros w e w'. unfold OS.st_size.
  destruct (fs w !! p); intros [= <- <-]; done.
Qed.


Lemma unhandled_not_key (e : exn) : unhandled e -> not_key_error e.
Proof. by destruct e. Qed.


Lemma both_not_key (e : exn) : not_key_error e /\ not_process_error e -> not_key_error e.
Proof. tauto. Qed.


Section Wrappers.
Variable E : environment.

Lemma run_minimap2_raises (target query output : str) :
  only_raises unhandled (Align.run_minimap2 E target query output).
Proof.
  unfold Align.run_minimap2. apply (try_raises _ not_key_error).
  - apply bind_raises; [apply print_raises|]. intros _.
    apply bind_raises; [apply subprocess_raises|]. intros _. apply print_raises.
  - intros [cmd rc cap| |m|c] He; done.
Qed.

Lemma report_unmapped_raises (unmapped_bed : str) :
  only_raises not_key_error (Liftover.report_unmapped unmapped_bed).
Proof.
  unfold Liftover.report_unmapped.
  apply bind_raises; [apply exists_raises|]. intros there.
  apply bind_raises.
  - destruct there; [|apply ret_raises].
    apply bind_raises; [|intros; apply ret_raises].
    eapply weaken_raises; [apply both_not_key|apply st_size_raises].
  - intros nonempty. destruct nonempty; apply print_raises.
Qed.

Lemma run_liftover_raises (bed chain output unmapped : str) :
  only_raises unhandled (Liftover.run_liftover E bed chain output unmapped).
Proof.
  unfold Liftover.run_liftover. apply (try_raises _ not_key_error).
  - apply bind_raises; [apply print_raises|]. intros _.
    apply bind_raises; [apply subprocess_raises|]. intros _.
    apply bind_raises; [apply print_raises|]. intros _.
    apply report_unmapped_raises.
  - intros [cmd rc cap| |m|c] He; done.
Qed.

Lemma run_paf2liftover_raises (paf_file chain_file : str) :
  only_raises unhandled (Liftover.run_paf2liftover E paf_file chain_file).
Proof.
  unfold Liftover.run_paf2liftover. apply (try_raises _ not_key_error).
  - apply bind_raises; [apply print_raises|]. intros _.
    apply bind_raises; [apply subprocess_raises|]. intros _.
    apply bind_raises;
      [eapply weaken_raises; [apply both_not_key|apply open_read_raises]|]. intros raw.
    apply bind_raises;
      [eapply weaken_raises; [apply unhandled_not_key|apply open_write_raises]|]. intros _.
    apply bind_raises; [apply close_written_raises|]. intros _.
    apply bind_raises;
      [eapply weaken_raises; [apply both_not_key|apply remove_raises]|]. intros _.
    apply print_raises.
  - intros [cmd rc cap| |m|c] He; done.
Qed.






Lemma process_paf_file_raises (paf_dir obd ubd bed filename : str) :
  only_raises unhandled (Liftover.process_paf_file E paf_dir obd ubd bed filename).
Proof.
  unfold Liftover.process_paf_file.
  destruct (Str.endswith filename (py ".paf")); [|apply ret_raises].
  apply bind_raises; [apply run_paf2liftover_raises|]. intros _.
  unfold Liftover.liftover_if_chain.
  apply bind_raises; [apply exists_raises|]. intros there.
  destruct there; [apply run_liftover_raises|apply print_raises].
Qed.

End Wrappers.
End EscapesFacts.

Module GrowthFacts.
Section WithEnvironment.
Variable E : environment.

Lemma bind_ok_inv {A B} (m : M A) (k : A -> M B) (w w' : world) (b : B) :
  (m ≫= k) w = (Ok b, w') ->
  exists a w1, m w = (Ok a, w1) /\ k a w1 = (Ok b, w').
Proof.
  rewrite Steps.bind_unfold. destruct (m w) as [[a|e] w1]; [|discriminate].
  intros H. by exists a, w1.
Qed.

Lemma bind_raise_inv {A B} (m : M A) (k : A -> M B) (w w' : world) (e : exn) :
  (m ≫= k) w = (Raise e, w') ->
  m w = (Raise e, w') \/ exists a w1, m w = (Ok a, w1) /\ k a w1 = (Raise e, w').
Proof.
  rewrite Steps.bind_unfold. destruct (m w) as [[a|e1] w1].
  - intros H. right. by exists a, w1.
  - intros [= <- <-]. by left.
Qed.



Lemma create_result (tsv out : str) (w w' : world) (r : result (option str)) :
  Liftover.create_hg38_bed E tsv out w = (r, w') ->
  (r = Ok None \/ r = Ok (Some out) \/ exists class, r = Raise (OtherError class))
  /\ (forall p, fs w' !! p = None -> fs w !! p = None)
  /\ spawned w' = spawned w.
Proof.
  unfold Liftover.create_hg38_bed, try_except, Liftover.read_csv, Liftover.bed_frame,
    Liftover.getitem, Liftover.to_csv, OS.open_read, OS.open_write, OS.close_written.
  unfold mbind, mret, M_bind, M_ret, bind, ret, raise, print, set_fs.
  intros H.
  repeat (case_match; simplify_eq/=); try (split; [eauto|split; [done|done]]).
  all: split; [eauto|split; [|done]].
  all: intros q; destruct (decide (out = q)) as [->|Hne];
    rewrite ?insert_insert_eq, ?lookup_insert_eq, ?lookup_insert_ne by done; done.
Qed.

End WithEnvironment.
End GrowthFacts.

Module MainFacts.
Section WithEnvironment.
Import Escapes EscapesFacts GrowthFacts.
Variable E : environment.

Lemma unhandled_class (e : exn) : unhandled e -> exists class, e = OtherError class.
Proof. destruct e; try done. eauto. Qed.


Lemma loop2_raises (paf_dir obd ubd bed : str) (names : list str) :
  only_raises unhandled (for_each names (Liftover.process_paf_file E paf_dir obd ubd bed)).
Proof. apply for_each_raises. intros x. apply process_paf_file_raises. Qed.


Lemma process_paf_directory_raise (paf_dir obd ubd bed : str) (w w' : world) (e : exn) :
  Liftover.process_paf_directory E paf_dir obd ubd bed w = (Raise e, w') ->
  unhandled e \/ (e = FileNotFoundError /\ fs w !! paf_dir = None /\ w' = w).
Proof.
  unfold Liftover.process_paf_directory. intros [H|(names & w1 & H1 & H2)]%bind_raise_inv.
  - unfold OS.listdir in H. destruct (fs w !! paf_dir) as [[c|es sz]|];
      simplify_eq; [by left|by right].
  - left. by eapply loop2_raises.
Qed.

Lemma bed_path_truthy : Str.truthy (Setup.bed_path E) = true.
Proof.
  unfold Setup.bed_path, Path.join.
  change (Str.startswith (py "hg38_imprinted_loci.bed") [SLASH]) with false.
  cbv beta iota. destruct (negb _ || _); by destruct (getcwd E).
Qed.


Lemma main2_ok (paf_dir obd ubd tsv : str) (w w' : world) :
  Liftover.main E paf_dir obd ubd tsv w = (Ok tt, w') ->
  fs w' !! Setup.bed_path E = None
  \/ exists w0, Liftover.create_hg38_bed E tsv (Setup.bed_path E) w0 = (Ok None, w').
Proof.
  unfold Liftover.main. fold (Setup.bed_path E).
  intros ([] & w1 & _ & H)%bind_ok_inv.
  apply bind_ok_inv in H as ([] & w2 & _ & H).
  apply bind_ok_inv in H as (created & w3 & H3 & H).
  destruct created as [bed|]; [|right; exists w2; unfold ret in H; by simplify_eq].
  left.
  assert (bed = Setup.bed_path E) as ->.
  { apply create_result in H3 as ([?|[?|[? ?]]] & _); by simplify_eq. }
  rewrite bed_path_truthy in H.
  apply bind_ok_inv in H as ([] & w4 & _ & H).
  rewrite Steps.bind_unfold in H. unfold OS.exists_ in H. cbv beta iota in H.
  case_bool_decide as Hthere.
  - unfold OS.remove, set_fs in H. destruct (fs w4 !! Setup.bed_path E) as [[c|es sz]|];
      simplify_eq. cbn [fs]. apply lookup_delete_eq.
  - unfold ret in H. simplify_eq. by apply eq_None_not_Some.
Qed.

End WithEnvironment.
End MainFacts.

Module ToolFacts.
Section WithEnvironment.
Variable E : environment.

Ltac step := rewrite ?Steps.bind_unfold, ?Steps.print_unfold; cbv beta iota.

Lemma run_failed (cmd : list str) (capture : bool) (w : world)
    (o : proc_outcome) (f : gmap (list N) node) :
  spawn E (length (spawned w)) cmd (fs w) = o ->
  Converter.converter_failed o w f ->
  exists e,
    subprocess_run E cmd capture w = (Raise e, World f (stdout w) (spawned w ++ [cmd]))
    /\ match o with
       | Exited rc out err _ =>
           e = CalledProcessError cmd rc (if capture then Some (out, err) else None)
       | _ => e = FileNotFoundError
       end.
Proof.
  intros Hspawn Hfail. destruct o as [rc out err f'| |]; simpl in Hfail; [|subst f|done].
  - destruct Hfail as [Hrc ->]. eexists. split; [by apply Steps.run_nonzero|done].
  - eexists. split; [by apply Steps.run_missing|done].
Qed.

Lemma run_unstartable (cmd : list str) (capture : bool) (w : world) :
  spawn E (length (spawned w)) cmd (fs w) = SpawnFailed ->
  subprocess_run E cmd capture w
  = (Raise (OtherError "OSError"), World (fs w) (stdout w) (spawned w ++ [cmd])).
Proof. intros H. unfold subprocess_run. by rewrite H. Qed.

Lemma run_liftover_failed (bed chain output unmapped : str) (w : world)
    (o : proc_outcome) (f : gmap (list N) node) :
  spawn E (length (spawned w)) (Liftover.liftover_command bed chain output unmapped) (fs w) = o ->
  Converter.converter_failed o w f ->
  Liftover.run_liftover E bed chain output unmapped w
  = (Ok tt,
     World f
       (stdout w ++ [ py "Running liftOver for chain file: " ++ chain;
                      Tools.liftover_error E (Liftover.liftover_command bed chain output unmapped) o ])
       (spawned w ++ [Liftover.liftover_command bed chain output unmapped])).
Proof.
  intros Hspawn Hfail. unfold Liftover.run_liftover, try_except. step.
  destruct (run_failed _ false (World (fs w) (stdout w ++ [py "Running liftOver for chain file: " ++ chain]) (spawned w)) o f Hspawn Hfail)
    as (e & Hrun & He).
  erewrite Steps.bind_raise by exact Hrun. cbv beta iota.
  destruct o as [rc out err f'| |]; [| |done]; subst e; cbv beta iota;
    rewrite Steps.print_unfold; cbn [fs stdout spawned str_exn Tools.liftover_error];
    by rewrite <- app_assoc.
Qed.

Lemma run_minimap2_failed (target query output : str) (w : world)
    (o : proc_outcome) (f : gmap (list N) node) :
  spawn E (length (spawned w)) (Align.minimap2_command target query output) (fs w) = o ->
  Converter.converter_failed o w f ->
  Align.run_minimap2 E target query output w
  = (Ok tt,
     World f
       (stdout w ++ [ py "Running command: "
                        ++ Str.join (py " ") (Align.minimap2_command target query output);
                      Tools.minimap2_error E (Align.minimap2_command target query output) o ])
       (spawned w ++ [Align.minimap2_command target query output])).
Proof.
  intros Hspawn Hfail. unfold Align.run_minimap2, try_except. cbv zeta. step.
  destruct (run_failed _ false (World (fs w) (stdout w ++ [py "Running command: " ++ Str.join (py " ") (Align.minimap2_command target query output)]) (spawned w)) o f Hspawn Hfail)
    as (e & Hrun & He).
  erewrite Steps.bind_raise by exact Hrun. cbv beta iota.
  destruct o as [rc out err f'| |]; [| |done]; subst e; cbv beta iota;
    rewrite Steps.print_unfold; cbn [fs stdout spawned str_exn Tools.minimap2_error];
    by rewrite <- app_assoc.
Qed.

Lemma run_liftover_exit0 (bed chain output unmapped : str) (w : world)
    (out err : str) (f : gmap (list N) node) :
  spawn E (length (spawned w)) (Liftover.liftover_command bed chain output unmapped) (fs w)
  = Exited 0 out err f ->
  exists report,
    Liftover.run_liftover E bed chain output unmapped w
    = (Ok tt,
       World f
         (stdout w ++ [ py "Running liftOver for chain file: " ++ chain;
                        py "Successfully generated lifted-over BED file: " ++ output;
                        report ])
         (spawned w ++ [Liftover.liftover_command bed chain output unmapped])).
Proof.
  intros Hspawn.
  set (cmd := Liftover.liftover_command bed chain output unmapped) in *.
  set (w1 := World f
               (stdout w ++ [py "Running liftOver for chain file: " ++ chain;
                             py "Successfully generated lifted-over BED file: " ++ output])
               (spawned w ++ [cmd])).
  destruct (LiftoverFacts.report_unmapped_spec unmapped w1) as (report & Hrun & _).
  exists report. unfold Liftover.run_liftover. apply Steps.try_ok. step.
  erewrite Steps.bind_ok by (by eapply Steps.run_exit0).
  step. cbn [fs stdout spawned]. rewrite <- app_assoc. fold cmd.
  change (?a ++ [?x] ++ [?y]) with (a ++ [x; y]). fold w1.
  rewrite Hrun. unfold w1. cbn [fs stdout spawned]. by rewrite <- app_assoc.
Qed.

Lemma run_liftover_spawns (bed chain output unmapped : str) (w : world) :
  exists r w',
    Liftover.run_liftover E bed chain output unmapped w = (r, w')
    /\ spawned w' = spawned w ++ [Liftover.liftover_command bed chain output unmapped].
Proof.
  set (cmd := Liftover.liftover_command bed chain output unmapped).
  destruct (spawn E (length (spawned w)) cmd (fs w)) as [rc out err f| |] eqn:Hspawn.
  - destruct (Z.eqb_spec rc 0) as [->|Hrc].
    + destruct (run_liftover_exit0 bed chain output unmapped w out err f Hspawn)
        as (report & ->). eauto.
    + rewrite (run_liftover_failed bed chain output unmapped w _ f Hspawn); [eauto|done].
  - rewrite (run_liftover_failed bed chain output unmapped w _ (fs w) Hspawn); [eauto|done].
  - unfold Liftover.run_liftover, try_except. step.
    erewrite Steps.bind_raise by (by apply run_unstartable).
    cbv beta iota. eauto.
Qed.

Lemma run_paf2liftover_no_tmp (paf_file chain_file : str) (w : world)
    (out err : str) (f : gmap (list N) node) :
  spawn E (length (spawned w)) (Liftover.paf2liftover_command paf_file chain_file) (fs w)
  = Exited 0 out err f ->
  f !! Liftover.tmp_of chain_file = None ->
  Liftover.run_paf2liftover E paf_file chain_file w
  = (Ok tt,
     World f (stdout w ++ [Converter.msg_running paf_file; Converter.msg_not_found])
       (spawned w ++ [Liftover.paf2liftover_command paf_file chain_file])).
Proof.
  intros Hspawn Htmp. unfold Liftover.run_paf2liftover, try_except. step.
  erewrite Steps.bind_ok by (by eapply Steps.run_exit0).
  rewrite Steps.bind_unfold. unfold OS.open_read at 1. cbn [fs stdout spawned].
  rewrite Htmp. cbv beta iota. rewrite Steps.print_unfold. cbn [fs stdout spawned].
  by rewrite <- app_assoc.
Qed.

Lemma process_paf_file_stale (paf_dir obd ubd bed filename : str) (w : world)
    (o : proc_outcome) (f : gmap (list N) node) :
  Str.endswith filename (py ".paf") = true ->
  spawn E (length (spawned w))
    (Liftover.paf2liftover_command (Path.join paf_dir filename)
       (Liftover.chain_path obd filename)) (fs w) = o ->
  Converter.converter_failed o w f ->
  is_Some (f !! Liftover.chain_path obd filename) ->
  exists r w',
    Liftover.process_paf_file E paf_dir obd ubd bed filename w = (r, w')
    /\ spawned w'
       = spawned w
         ++ [ Liftover.paf2liftover_command (Path.join paf_dir filename)
                (Liftover.chain_path obd filename);
              Liftover.liftover_command bed (Liftover.chain_path obd filename)
                (Liftover.lifted_over_path obd filename)
                (Liftover.unmapped_path ubd filename) ].
Proof.
  intros Hext Hspawn Hfail Hchain. unfold Liftover.process_paf_file. rewrite Hext.
  erewrite Steps.bind_ok by (by eapply ConverterFacts.run_paf2liftover_failed).
  unfold Liftover.liftover_if_chain. rewrite Steps.bind_unfold. unfold OS.exists_.
  cbn [fs]. rewrite bool_decide_eq_true_2 by done.
  edestruct run_liftover_spawns as (r & w' & -> & Hw').
  exists r, w'. split; [done|]. rewrite Hw'. cbn [spawned]. by rewrite <- app_assoc.
Qed.

Lemma loop_skips {A} (P : A -> Prop) `{!forall x, Decision (P x)}
    (body : A -> M unit) (xs : list A) (w : world) :
  (forall x w0, ~ P x -> body x w0 = (Ok tt, w0)) ->
  for_each xs body w = for_each (filter P xs) body w.
Proof.
  intros Hskip. revert w. induction xs as [|x xs IH]; intros w; [done|].
  rewrite filter_cons. destruct (decide (P x)) as [HP|HP]; cbn [for_each].
  - rewrite !Steps.bind_unfold. destruct (body x w) as [[[]|e] w1]; [apply IH|done].
  - rewrite Steps.bind_unfold, Hskip by done. apply IH.
Qed.

End WithEnvironment.
End ToolFacts.

Module PathFacts.

Lemma rfind_from_app (c : N) (a b : str) (i found : Z) :
  Path.rfind_from c (a ++ b) i found
  = Path.rfind_from c b (i + Z.of_nat (length a))%Z (Path.rfind_from c a i found).
Proof.
  revert i found. induction a as [|d a IH]; intros i found; simpl.
  - by rewrite Z.add_0_r.
  - rewrite IH. f_equal. lia.
Qed.

Lemma rfind_from_absent (c : N) (p : str) (i found : Z) :
  c ∉ p -> Path.rfind_from c p i found = found.
Proof.
  revert i found. induction p as [|d p IH]; intros i found Hc; [done|].
  apply not_elem_of_cons in Hc as [Hd Hp]. simpl.
  rewrite IH by done. destruct (N.eqb_spec d c); congruence.
Qed.

Lemma rfind_last (c : N) (stem e : str) :
  c ∉ e -> Path.rfind c (stem ++ c :: e) = Z.of_nat (length stem).
Proof.
  intros He. unfold Path.rfind. rewrite rfind_from_app. simpl.
  rewrite N.eqb_refl. by rewrite rfind_from_absent.
Qed.

Lemma rfind_none (c : N) (p : str) : c ∉ p -> Path.rfind c p = (-1)%Z.
Proof. apply rfind_from_absent. Qed.

Lemma splitext_name (stem e : str) :
  SLASH ∉ stem -> SLASH ∉ e -> DOT ∉ e ->
  Path.splitext (stem ++ DOT :: e)
  = if existsb (fun c => negb (c =? DOT)) stem
    then (stem, DOT :: e)
    else (stem ++ DOT :: e, []).
Proof.
  intros Hs He Hd. unfold Path.splitext.
  assert (Hall : SLASH ∉ stem ++ DOT :: e).
  { rewrite elem_of_app, elem_of_cons. intros [?|[?|?]]; done. }
  rewrite rfind_none, rfind_last by done.
  destruct (Z.ltb_spec (-1) (Z.of_nat (length stem))) as [_|?]; [|lia].
  change (Z.to_nat (-1 + 1)) with 0%nat. rewrite Nat2Z.id, Nat.sub_0_r, drop_0.
  rewrite take_app_length. by rewrite drop_app_length.
Qed.

Lemma endswith_app (stem ext : str) : Str.endswith (stem ++ ext) ext = true.
Proof.
  unfold Str.endswith. rewrite rev_app_distr.
  apply OccurrencesFacts.startswith_app. by eexists.
Qed.

End PathFacts.

Module ReplaceFacts.
Import Occurrences OccurrencesFacts Substring.

Lemma replace_from_skip_all (old new : str) (k : nat) (t : str) :
  (length t <= k)%nat -> Str.replace_from old new k t = [].
Proof.
  revert k. induction t as [|c t IH]; intros k Hk; [done|].
  destruct k as [|k]; simpl in *; [lia|]. apply IH. lia.
Qed.

Lemma startswith_refl (p : str) : Str.startswith p p = true.
Proof. apply startswith_app. exists []. by rewrite app_nil_r. Qed.

Lemma startswith_app_short (s t p : str) :
  (length p <= length s)%nat -> Str.startswith (s ++ t) p = Str.startswith s p.
Proof.
  revert s. induction p as [|a p IH]; intros s Hlen.
  - by destruct s, t.
  - destruct s as [|c s]; simpl in *; [lia|]. rewrite IH by lia. done.
Qed.

Lemma occurs_at_end (pat s : str) : occurs_at pat (s ++ pat) (length s) = true.
Proof. unfold occurs_at. rewrite drop_app_length. apply startswith_refl. Qed.

Lemma contains_false (pat s : str) :
  pat <> [] ->
  contains pat s = false <-> forall i, occurs_at pat s i = false.
Proof.
  intros Hne. unfold contains. split.
  - intros H i. destruct (occurs_at pat s i) eqn:Hi; [|done].
    destruct (decide (i < S (length s))%nat) as [Hlt|Hge].
    + assert (Hex : existsb (occurs_at pat s) (seq 0 (S (length s))) = true).
      { apply existsb_exists. exists i. split; [|done]. apply in_seq. lia. }
      congruence.
    + unfold occurs_at in Hi. rewrite drop_ge in Hi by lia. by destruct pat.
  - intros H. destruct (existsb _ _) eqn:Hex; [|done].
    apply existsb_exists in Hex as (i & _ & Hi). by rewrite H in Hi.
Qed.

Lemma replace_appended (pat s : str) :
  unbordered pat -> pat <> [] -> (forall i, occurs_at pat s i = false) ->
  Str.replace (s ++ pat) pat [] = s.
Proof.
  intros Hpat Hne. unfold Str.replace. induction s as [|c s IH]; intros Hocc.
  - destruct pat as [|a pat]; [done|]. cbn [app Str.replace_from].
    rewrite startswith_refl. cbn [app]. apply replace_from_skip_all. simpl. lia.
  - change ((c :: s) ++ pat) with (c :: (s ++ pat)). cbn [Str.replace_from].
    assert (Hhere : Str.startswith (c :: s ++ pat) pat = false).
    { destruct (Str.startswith (c :: s ++ pat) pat) eqn:Hsw; [|done]. exfalso.
      destruct (decide (length pat <= length (c :: s))%nat) as [Hle|Hgt].
      - change (c :: s ++ pat) with ((c :: s) ++ pat) in Hsw.
        rewrite startswith_app_short in Hsw by done.
        specialize (Hocc 0%nat). unfold occurs_at in Hocc. rewrite drop_0 in Hocc. congruence.
      - pose proof (Hpat ((c :: s) ++ pat) (length (c :: s))) as Hb.
        rewrite occurs_at_end in Hb. enough (true = false) by done. apply Hb.
        + simpl in *. lia.
        + unfold occurs_at. by rewrite drop_0. }
    rewrite Hhere. f_equal. apply IH. intros i. apply (Hocc (S i)).
Qed.

Lemma startswith_app_split (s t p : str) :
  Str.startswith (s ++ t) p = true ->
  Str.startswith s p = true \/ exists c, c ∈ p /\ c ∈ t.
Proof.
  revert p. induction s as [|c s IH]; intros p.
  - destruct p as [|a p]; [by left; destruct t|].
    destruct t as [|d t]; [done|]. simpl.
    intros [->%N.eqb_eq _]%andb_true_iff. right. exists a. split; by left.
  - destruct p as [|a p]; [by left|]. simpl.
    intros [Hc [H|(d & Hd & Ht)]%IH]%andb_true_iff.
    + left. by rewrite Hc, H.
    + right. exists d. split; [by right|done].
Qed.

Lemma occurs_at_app_split (pat s t : str) (i : nat) :
  pat <> [] -> occurs_at pat (s ++ t) i = true ->
  occurs_at pat s i = true \/ exists c, c ∈ pat /\ c ∈ t.
Proof.
  intros Hne. revert i. induction s as [|c s IH]; intros i.
  - intros H. right. unfold occurs_at in H. simpl in H.
    apply startswith_app in H as [rest H].
    destruct pat as [|a pat]; [done|]. exists a. split; [by left|].
    rewrite <- (take_drop i t), H. apply elem_of_app. right. by left.
  - destruct i as [|i].
    + unfold occurs_at. rewrite !drop_0. apply startswith_app_split.
    + apply IH.
Qed.

Lemma disjoint_chars_spec (pat t : str) (c : N) :
  disjoint_chars pat t = true -> c ∈ pat -> c ∈ t -> False.
Proof.
  unfold disjoint_chars. rewrite forallb_forall. intros H Hp Ht.
  apply list_elem_of_In in Ht. apply H in Ht. apply negb_true_iff in Ht.
  assert (existsb (N.eqb c) pat = true); [|congruence].
  apply existsb_exists. exists c. split; [by apply list_elem_of_In|apply N.eqb_refl].
Qed.

Lemma contains_app_disjoint (pat s t : str) :
  pat <> [] -> contains pat s = false -> disjoint_chars pat t = true ->
  contains pat (s ++ t) = false.
Proof.
  intros Hne Hs Ht. apply contains_false; [done|]. intros i.
  destruct (occurs_at pat (s ++ t) i) eqn:Hi; [|done].
  destruct (occurs_at_app_split pat s t i Hne Hi) as [Hin|(c & Hp & Hc)].
  - rewrite (proj1 (contains_false pat s Hne) Hs) in Hin. done.
  - destruct (disjoint_chars_spec pat t c Ht Hp Hc).
Qed.

Lemma assembly_name_stem (stem : str) :
  contains (py ".paf") stem = false ->
  Liftover.assembly_name (stem ++ py ".paf") = stem.
Proof.
  intros H. apply replace_appended; [apply paf_unbordered|done|].
  by apply contains_false.
Qed.

End ReplaceFacts.

(** X4.  When the converter exits with status 0 but leaves no temporary
    file, [open] raises [FileNotFoundError] inside the [try] block, and
    [run_paf2liftover] reports that paf2liftover.py is not in the PATH; it
    returns normally and writes nothing, so the chain file is neither
    created nor truncated. *)
Theorem X4_missing_tmp_reported_as_missing_tool (E : environment)
    (paf_file chain_file : str) (w : world) (out err : str) (f : gmap (list N) node) :
  spawn E (length (spawned w)) (Liftover.paf2liftover_command paf_file chain_file) (fs w)
  = Exited 0 out err f ->
  f !! Liftover.tmp_of chain_file = None ->
  Liftover.run_paf2liftover E paf_file chain_file w
  = (Ok tt,
     World f (stdout w ++ [Converter.msg_running paf_file; Converter.msg_not_found])
       (spawned w ++ [Liftover.paf2liftover_command paf_file chain_file])).
Proof. apply ToolFacts.run_paf2liftover_no_tmp. Qed.

(** The theorem on a sample input. *)
Lemma X4_missing_tmp_reported_as_missing_tool_witness :
  Liftover.run_paf2liftover Sample2.env_silent (py "pafs/a.paf") (py "out/a_to_hg38.chain")
    Sample.start
  = (Ok tt,
     World Sample.disk
       [ Converter.msg_running (py "pafs/a.paf"); Converter.msg_not_found ]
       [ Liftover.paf2liftover_command (py "pafs/a.paf") (py "out/a_to_hg38.chain") ]).
Proof.
  apply (X4_missing_tmp_reported_as_missing_tool Sample2.env_silent (py "pafs/a.paf")
           (py "out/a_to_hg38.chain") Sample.start [] [] Sample.disk);
    vm_compute; reflexivity.
Defined.

(** X5.  A chain file left at the chain path by an earlier run survives a
    failed conversion: the loop body of [process_paf_directory] finds it
    with [os.path.exists] and starts liftOver on it, right after the failed
    converter. *)
Theorem X5_stale_chain_is_lifted (E : environment)
    (paf_dir output_bed_dir unmapped_bed_dir hg38_bed_file filename : str) (w : world)
    (o : proc_outcome) (f : gmap (list N) node) :
  Str.endswith filename (py ".paf") = true ->
  spawn E (length (spawned w))
    (Liftover.paf2liftover_command (Path.join paf_dir filename)
       (Liftover.chain_path output_bed_dir filename)) (fs w) = o ->
  Converter.converter_failed o w f ->
  is_Some (f !! Liftover.chain_path output_bed_dir filename) ->
  exists r w',
    Liftover.process_paf_file E paf_dir output_bed_dir unmapped_bed_dir hg38_bed_file
      filename w = (r, w')
    /\ spawned w'
       = spawned w
         ++ [ Liftover.paf2liftover_command (Path.join paf_dir filename)
                (Liftover.chain_path output_bed_dir filename);
              Liftover.liftover_command hg38_bed_file
                (Liftover.chain_path output_bed_dir filename)
                (Liftover.lifted_over_path output_bed_dir filename)
                (Liftover.unmapped_path unmapped_bed_dir filename) ].
Proof. apply ToolFacts.process_paf_file_stale. Qed.

(** The theorem on a sample input. *)
Lemma X5_stale_chain_is_lifted_witness :
  exists r w',
    Liftover.process_paf_file Sample.env_broken (py "pafs") (py "out") (py "unmapped")
      (py "hg38.bed") (py "a.paf") Sample2.start_stale = (r, w')
    /\ spawned w'
       = [ Liftover.paf2liftover_command (py "pafs/a.paf") (py "out/a_to_hg38.chain");
           Liftover.liftover_command (py "hg38.bed") (py "out/a_to_hg38.chain")
             (py "out/a_imprinted_loci.bed") (py "unmapped/a_unmapped.bed") ].
Proof.
  apply (X5_stale_chain_is_lifted Sample.env_broken (py "pafs") (py "out") (py "unmapped")
           (py "hg38.bed") (py "a.paf") Sample2.start_stale
           (Exited 2 (py "out") (py "err") Sample2.disk_stale) Sample2.disk_stale).
  - reflexivity.
  - reflexivity.
  - split; [discriminate|reflexivity].
  - vm_compute. eauto.
Defined.

(** X6.  The three tool wrappers let no [CalledProcessError],
    [FileNotFoundError] or [KeyError] out, whatever the tool and the file
    system do: an exception that leaves [run_minimap2], [run_paf2liftover]
    or [run_liftover] is of a class their [except] clauses do not name. *)
Theorem X6_wrappers_contain_tool_errors (E : environment) :
  (forall target query output w e w',
      Align.run_minimap2 E target query output w = (Raise e, w') ->
      exists class, e = OtherError class)
  /\ (forall paf_file chain_file w e w',
        Liftover.run_paf2liftover E paf_file chain_file w = (Raise e, w') ->
        exists class, e = OtherError class)
  /\ (forall bed chain output unmapped w e w',
        Liftover.run_liftover E bed chain output unmapped w = (Raise e, w') ->
        exists class, e = OtherError class).
Proof.
  split; [|split]; intros; apply MainFacts.unhandled_class.
  - by eapply EscapesFacts.run_minimap2_raises.
  - by eapply EscapesFacts.run_paf2liftover_raises.
  - by eapply EscapesFacts.run_liftover_raises.
Qed.

(** The theorem on a sample input. *)
Lemma X6_wrappers_contain_tool_errors_witness :
  exists class, OtherError "OSError" = OtherError class.
Proof.
  apply (proj1 (X6_wrappers_contain_tool_errors Sample2.env_unstartable)
           (py "hg38.fa") (py "in/a.fa") (py "out/a_vs_hg38.paf") Sample.start
           (OtherError "OSError")
           (snd (Align.run_minimap2 Sample2.env_unstartable (py "hg38.fa") (py "in/a.fa")
                   (py "out/a_vs_hg38.paf") Sample.start))).
  vm_compute. reflexivity.
Defined.

(** X7.  [create_hg38_bed] ends in one of three ways: it returns [None], it
    returns the output path it was given, or it raises an exception of a
    class it has no handler for (never [FileNotFoundError] or [KeyError]).
    In every case it starts no process and removes no path from the file
    system. *)
Theorem X7_create_hg38_bed_outcomes (E : environment) (tsv out : str)
    (w w' : world) (r : result (option str)) :
  Liftover.create_hg38_bed E tsv out w = (r, w') ->
  (r = Ok None \/ r = Ok (Some out) \/ exists class, r = Raise (OtherError class))
  /\ (forall p, fs w' !! p = None -> fs w !! p = None)
  /\ spawned w' = spawned w.
Proof. apply GrowthFacts.create_result. Qed.

(** The theorem on a sample input. *)
Lemma X7_create_hg38_bed_outcomes_witness :
  (@Raise (option (list N)) (OtherError "IsADirectoryError") = Ok None
   \/ Raise (OtherError "IsADirectoryError") = Ok (Some (py "hg38.bed"))
   \/ exists class,
        @Raise (option (list N)) (OtherError "IsADirectoryError") = Raise (OtherError class))
  /\ (forall p,
        fs (snd (Liftover.create_hg38_bed Sample.env (py "in") (py "hg38.bed") Sample.start))
        !! p = None ->
        fs Sample.start !! p = None)
  /\ spawned (snd (Liftover.create_hg38_bed Sample.env (py "in") (py "hg38.bed") Sample.start))
     = spawned Sample.start.
Proof.
  apply (X7_create_hg38_bed_outcomes Sample.env (py "in") (py "hg38.bed") Sample.start).
  vm_compute. reflexivity.
Defined.

(** X8.  [process_paf_directory] ends with [FileNotFoundError] exactly when
    its directory is absent; the files of the directory never cause one. *)
Theorem X8_paf_directory_file_not_found (E : environment)
    (paf_dir output_bed_dir unmapped_bed_dir hg38_bed_file : str) (w : world) :
  (exists w',
      Liftover.process_paf_directory E paf_dir output_bed_dir unmapped_bed_dir
        hg38_bed_file w = (Raise FileNotFoundError, w'))
  <-> fs w !! paf_dir = None.
Proof.
  split.
  - intros [w' H]. apply MainFacts.process_paf_directory_raise in H as [H|(_ & H & _)]; done.
  - intros H. exists w. by apply process_paf_directory_missing.
Qed.



(** X10.  When program 2 returns normally, either [create_hg38_bed] had
    returned [None] and the run stopped there, or the temporary interval
    file [hg38_imprinted_loci.bed] of the working directory is gone. *)
Theorem X10_interval_file_removed (E : environment)
    (paf_dir output_bed_dir unmapped_bed_dir imprinted_loci_tsv : str) (w w' : world) :
  Liftover.main E paf_dir output_bed_dir unmapped_bed_dir imprinted_loci_tsv w
  = (Ok tt, w') ->
  fs w' !! Setup.bed_path E = None
  \/ exists w0,
       Liftover.create_hg38_bed E imprinted_loci_tsv (Setup.bed_path E) w0 = (Ok None, w').
Proof. apply MainFacts.main2_ok. Qed.

(** The theorem on a sample input. *)
Lemma X10_interval_file_removed_witness :
  fs (snd (Liftover.main Sample.env (py "in") (py "out") (py "unmapped") (py "loci.tsv")
             Sample.start))
  !! Setup.bed_path Sample.env = None
  \/ exists w0,
       Liftover.create_hg38_bed Sample.env (py "loci.tsv") (Setup.bed_path Sample.env) w0
       = (Ok None,
          snd (Liftover.main Sample.env (py "in") (py "out") (py "unmapped") (py "loci.tsv")
                 Sample.start)).
Proof.
  apply (X10_interval_file_removed Sample.env (py "in") (py "out") (py "unmapped")
           (py "loci.tsv") Sample.start).
  vm_compute. reflexivity.
Defined.





(** X13.  When the input path is no directory (absent, or a regular file)
    [process_directories] prints that it does not exist and returns: the
    output directory is not created and no process is started. *)
Theorem X13_input_directory_guard (E : environment)
    (target_fasta input_dir output_dir : str) (w : world) :
  (forall entries size, fs w !! input_dir <> Some (Dir entries size)) ->
  Align.process_directories E target_fasta input_dir output_dir w
  = (Ok tt,
     World (fs w)
       (stdout w ++ [py "Error: Input directory '" ++ input_dir ++ py "' does not exist."])
       (spawned w)).
Proof.
  intros Hin. unfold Align.process_directories. rewrite Steps.bind_unfold.
  unfold OS.isdir.
  destruct (fs w !! input_dir) as [[c|es sz]|] eqn:Heq; [done|by destruct (Hin es sz)|done].
Qed.

(** The theorem on a sample input. *)
Lemma X13_input_directory_guard_witness :
  Align.process_directories Sample.env (py "hg38.fa") (py "loci.tsv") (py "out") Sample.start
  = (Ok tt,
     World Sample.disk [py "Error: Input directory 'loci.tsv' does not exist."] []).
Proof.
  apply (X13_input_directory_guard Sample.env (py "hg38.fa") (py "loci.tsv") (py "out")
           Sample.start).
  intros entries size. vm_compute. discriminate.
Defined.

(** X14.  Entries without a recognised suffix have no effect at all: each
    loop does on a listing exactly what it does on the listing with those
    entries removed (no print, no process, no change of the file system). *)
Theorem X14_other_entries_ignored (E : environment) :
  (forall target_fasta input_dir output_dir names w,
      for_each names (Align.align_file E target_fasta input_dir output_dir) w
      = for_each (filter Align.is_sequence_file names)
          (Align.align_file E target_fasta input_dir output_dir) w)
  /\ (forall paf_dir output_bed_dir unmapped_bed_dir hg38_bed_file names w,
        for_each names
          (Liftover.process_paf_file E paf_dir output_bed_dir unmapped_bed_dir hg38_bed_file) w
        = for_each (filter (fun name => Str.endswith name (py ".paf")) names)
            (Liftover.process_paf_file E paf_dir output_bed_dir unmapped_bed_dir
               hg38_bed_file) w).
Proof.
  split; intros; apply ToolFacts.loop_skips; intros x w0 Hx.
  - unfold Align.align_file. by destruct (Align.is_sequence_file x).
  - unfold Liftover.process_paf_file. by destruct (Str.endswith x (py ".paf")).
Qed.

(** X15.  When liftOver exits with a non-zero status or is missing,
    [run_liftover] returns normally after printing one error line; it
    prints neither the success line nor a report on unmapped intervals, and
    the file system is the one liftOver left. *)
Theorem X15_liftover_failure (E : environment)
    (bed_file chain_file output_bed unmapped_bed : str) (w : world)
    (o : proc_outcome) (f : gmap (list N) node) :
  spawn E (length (spawned w))
    (Liftover.liftover_command bed_file chain_file output_bed unmapped_bed) (fs w) = o ->
  Converter.converter_failed o w f ->
  Liftover.run_liftover E bed_file chain_file output_bed unmapped_bed w
  = (Ok tt,
     World f
       (stdout w ++
          [ py "Running liftOver for chain file: " ++ chain_file;
            Tools.liftover_error E
              (Liftover.liftover_command bed_file chain_file output_bed unmapped_bed) o ])
       (spawned w ++
          [Liftover.liftover_command bed_file chain_file output_bed unmapped_bed])).
Proof. apply ToolFacts.run_liftover_failed. Qed.

(** The theorem on a sample input. *)
Lemma X15_liftover_failure_witness :
  Liftover.run_liftover Sample.env_broken (py "hg38.bed") (py "a.chain") (py "a.bed")
    (py "a_unmapped.bed") Sample.start
  = (Ok tt,
     World Sample.disk
       [ py "Running liftOver for chain file: a.chain";
         py "Error running liftOver: non-zero exit" ]
       [ Liftover.liftover_command (py "hg38.bed") (py "a.chain") (py "a.bed")
           (py "a_unmapped.bed") ]).
Proof.
  apply (X15_liftover_failure Sample.env_broken (py "hg38.bed") (py "a.chain") (py "a.bed")
           (py "a_unmapped.bed") Sample.start (Exited 2 (py "out") (py "err") Sample.disk)
           Sample.disk).
  - reflexivity.
  - split; [discriminate|reflexivity].
Defined.

(** X16.  When the aligner exits with a non-zero status or is missing,
    [run_minimap2] returns normally after printing the command and one
    error line, without the success line; the file system is the one the
    aligner left. *)
Theorem X16_minimap2_failure (E : environment)
    (target_fasta query_fasta output_paf : str) (w : world)
    (o : proc_outcome) (f : gmap (list N) node) :
  spawn E (length (spawned w))
    (Align.minimap2_command target_fasta query_fasta output_paf) (fs w) = o ->
  Converter.converter_failed o w f ->
  Align.run_minimap2 E target_fasta query_fasta output_paf w
  = (Ok tt,
     World f
       (stdout w ++
          [ py "Running command: "
              ++ Str.join (py " ") (Align.minimap2_command target_fasta query_fasta output_paf);
            Tools.minimap2_error E
              (Align.minimap2_command target_fasta query_fasta output_paf) o ])
       (spawned w ++ [Align.minimap2_command target_fasta query_fasta output_paf])).
Proof. apply ToolFacts.run_minimap2_failed. Qed.

(** The theorem on a sample input. *)
Lemma X16_minimap2_failure_witness :
  Align.run_minimap2 Sample.env (py "hg38.fa") (py "in/b.fa") (py "out/b_vs_hg38.paf")
    Sample.start
  = (Ok tt,
     World Sample.disk
       [ py "Running command: minimap2 -ax asm5 -secondary=no -K 4G hg38.fa in/b.fa -o out/b_vs_hg38.paf";
         py "Error: minimap2 not found in your PATH. Please ensure it is installed." ]
       [ Align.minimap2_command (py "hg38.fa") (py "in/b.fa") (py "out/b_vs_hg38.paf") ]).
Proof.
  apply (X16_minimap2_failure Sample.env (py "hg38.fa") (py "in/b.fa")
           (py "out/b_vs_hg38.paf") Sample.start NoSuchProgram Sample.disk); reflexivity.
Defined.

Ltac by_decision :=
  match goal with |- ?P => apply (bool_decide_unpack P) end; vm_compute; exact I.

Module NameFacts.

Lemma extension_shape (ext : str) :
  ext ∈ [py ".fasta"; py ".fa"; py ".fna"] ->
  exists e, ext = DOT :: e /\ (SLASH ∉ e) /\ (DOT ∉ e).
Proof.
  intros H. repeat (apply elem_of_cons in H as [->|H]).
  - exists (py "fasta"). split; [done|]. split; by_decision.
  - exists (py "fa"). split; [done|]. split; by_decision.
  - exists (py "fna"). split; [done|]. split; by_decision.
  - by apply elem_of_nil in H.
Qed.

Lemma is_sequence_file_app (stem ext : str) :
  ext ∈ [py ".fasta"; py ".fa"; py ".fna"] ->
  Align.is_sequence_file (stem ++ ext) = true.
Proof.
  intros H. unfold Align.is_sequence_file.
  repeat (apply elem_of_cons in H as [->|H]).
  - by rewrite PathFacts.endswith_app.
  - by rewrite PathFacts.endswith_app, orb_true_r.
  - by rewrite PathFacts.endswith_app, orb_true_r.
  - by apply elem_of_nil in H.
Qed.

Lemma output_paf_path_app (output_dir stem ext : str) :
  ext ∈ [py ".fasta"; py ".fa"; py ".fna"] -> SLASH ∉ stem ->
  Align.output_paf_path output_dir (stem ++ ext)
  = Path.join output_dir
      ((if existsb (fun c => negb (c =? DOT)) stem then stem else stem ++ ext)
       ++ py "_vs_hg38.paf").
Proof.
  intros (e & -> & Hs & Hd)%extension_shape Hstem. unfold Align.output_paf_path.
  rewrite PathFacts.splitext_name by done.
  by destruct (existsb _ stem).
Qed.

End NameFacts.

(** X17.  A name without ['/'] that ends in .fasta, .fa or .fna passes the
    test of line 48, and its alignment is written to the output directory
    under the stem followed by [_vs_hg38.paf]; when the stem is empty or has
    only dots, [os.path.splitext] splits nothing off and the extension stays
    in the name.  Two files that differ only in a recognised extension so
    share one output path. *)
Theorem X17_output_paf_name (output_dir stem ext : str) :
  ext ∈ [py ".fasta"; py ".fa"; py ".fna"] ->
  SLASH ∉ stem ->
  Align.is_sequence_file (stem ++ ext) = true
  /\ Align.output_paf_path output_dir (stem ++ ext)
     = Path.join output_dir
         ((if existsb (fun c => negb (c =? DOT)) stem then stem else stem ++ ext)
          ++ py "_vs_hg38.paf").
Proof.
  intros Hext Hstem. split.
  - by apply NameFacts.is_sequence_file_app.
  - by apply NameFacts.output_paf_path_app.
Qed.

(** The theorem on a sample input. *)
Lemma X17_output_paf_name_witness :
  (Align.is_sequence_file (py "HG002.v1" ++ py ".fasta") = true
   /\ Align.output_paf_path (py "out") (py "HG002.v1" ++ py ".fasta")
      = py "out/HG002.v1_vs_hg38.paf")
  /\ (Align.is_sequence_file (py ".." ++ py ".fa") = true
      /\ Align.output_paf_path (py "out") (py ".." ++ py ".fa")
         = py "out/...fa_vs_hg38.paf").
Proof.
  split.
  - apply (X17_output_paf_name (py "out") (py "HG002.v1") (py ".fasta"));
      by_decision.
  - apply (X17_output_paf_name (py "out") (py "..") (py ".fa"));
      by_decision.
Defined.

(** X18.  For a file named stem + [.paf] whose stem does not contain
    [.paf], the suffix test of line 97 passes and the assembly name is the
    stem. *)
Theorem X18_assembly_name_of_plain_name (stem : str) :
  Substring.contains (py ".paf") stem = false ->
  Str.endswith (stem ++ py ".paf") (py ".paf") = true
  /\ Liftover.assembly_name (stem ++ py ".paf") = stem.
Proof.
  intros H. split; [apply PathFacts.endswith_app|by apply ReplaceFacts.assembly_name_stem].
Qed.

(** The theorem on a sample input. *)
Lemma X18_assembly_name_of_plain_name_witness :
  Str.endswith (py "HG002.v1_vs_hg38" ++ py ".paf") (py ".paf") = true
  /\ Liftover.assembly_name (py "HG002.v1_vs_hg38" ++ py ".paf") = py "HG002.v1_vs_hg38".
Proof.
  apply (X18_assembly_name_of_plain_name (py "HG002.v1_vs_hg38")). reflexivity.
Defined.

(** X19.  The two programs fit together: for a sequence file stem + ext
    (stem without ['/'], with a character other than ['.'], not containing
    [.paf]) program 1 writes [stem_vs_hg38.paf]; program 2 accepts that
    name, takes [stem_vs_hg38] as the assembly name and writes the chain to
    [stem_vs_hg38_to_hg38.chain]. *)
Theorem X19_alignment_output_feeds_liftover (output_dir output_bed_dir stem ext : str) :
  ext ∈ [py ".fasta"; py ".fa"; py ".fna"] ->
  SLASH ∉ stem ->
  existsb (fun c => negb (c =? DOT)) stem = true ->
  Substring.contains (py ".paf") stem = false ->
  Align.output_paf_path output_dir (stem ++ ext)
  = Path.join output_dir (stem ++ py "_vs_hg38.paf")
  /\ Str.endswith (stem ++ py "_vs_hg38.paf") (py ".paf") = true
  /\ Liftover.assembly_name (stem ++ py "_vs_hg38.paf") = stem ++ py "_vs_hg38"
  /\ Liftover.chain_path output_bed_dir (stem ++ py "_vs_hg38.paf")
     = Path.join output_bed_dir (stem ++ py "_vs_hg38_to_hg38.chain").
Proof.
  intros Hext Hstem Hdot Hpaf.
  assert (Hname : Liftover.assembly_name (stem ++ py "_vs_hg38.paf") = stem ++ py "_vs_hg38").
  { change (py "_vs_hg38.paf") with (py "_vs_hg38" ++ py ".paf"). rewrite app_assoc.
    apply ReplaceFacts.assembly_name_stem.
    by apply ReplaceFacts.contains_app_disjoint. }
  split.
  { rewrite NameFacts.output_paf_path_app by done. by rewrite Hdot. }
  split.
  { change (py "_vs_hg38.paf") with (py "_vs_hg38" ++ py ".paf"). rewrite app_assoc.
    apply PathFacts.endswith_app. }
  split; [exact Hname|].
  unfold Liftover.chain_path. rewrite Hname, <- app_assoc. reflexivity.
Qed.

(** The theorem on a sample input. *)
Lemma X19_alignment_output_feeds_liftover_witness :
  Align.output_paf_path (py "pafs") (py "HG002.v1" ++ py ".fa")
  = Path.join (py "pafs") (py "HG002.v1" ++ py "_vs_hg38.paf")
  /\ Str.endswith (py "HG002.v1" ++ py "_vs_hg38.paf") (py ".paf") = true
  /\ Liftover.assembly_name (py "HG002.v1" ++ py "_vs_hg38.paf")
     = py "HG002.v1" ++ py "_vs_hg38"
  /\ Liftover.chain_path (py "out") (py "HG002.v1" ++ py "_vs_hg38.paf")
     = Path.join (py "out") (py "HG002.v1" ++ py "_vs_hg38_to_hg38.chain").
Proof.
  apply (X19_alignment_output_feeds_liftover (py "pafs") (py "out") (py "HG002.v1") (py ".fa"));
    try reflexivity; by_decision.
Defined.

(** X20.  Every row of the loci table gives one line of the interval file:
    for a row with chromosome cell [c] (whose text needs no csv quoting) and
    integer start [s] and end [e], the line is [chr] followed by the text of
    [c], a tab, [s], a tab, [e] and the line break.  The prefix is added
    also to a name that already starts with [chr]. *)
Theorem X20_interval_lines (E : environment) (tsv out : str) (w : world)
    (raw : str) (df : DataFrame) (chrom start stop : list cell)
    (i : nat) (c : cell) (s e : Z) :
  fs w !! tsv = Some (File raw) ->
  parse_table E raw = Some df ->
  (forall entries size, fs w !! out <> Some (Dir entries size)) ->
  Frame.column df (py "Chromosome") = Some chrom ->
  Frame.column df (py "Start") = Some start ->
  Frame.column df (py "End") = Some stop ->
  length start = length chrom ->
  length stop = length chrom ->
  chrom !! i = Some c ->
  Frame.needs_quote TAB (Frame.astype_str c) = false ->
  start !! i = Some (IntCell s) ->
  stop !! i = Some (IntCell e) ->
  exists (lines : list str) (w' : world),
    Liftover.create_hg38_bed E tsv out w = (Ok (Some out), w')
    /\ fs w' !! out = Some (File (concat lines))
    /\ length lines = length chrom
    /\ lines !! i
       = Some (py "chr" ++ Frame.astype_str c ++ TAB :: Str.of_int s
               ++ TAB :: Str.of_int e ++ [LF]).
Proof.
  intros Hfile Hparse Hout Hc Hs He Hls Hle Hci Hq Hsi Hei.
  set (bed := [ (py "Chromosome", map Table.chr_cell chrom);
                (py "Start", start); (py "End", stop) ]).
  exists (map (Frame.csv_line TAB) (Frame.rows bed)). eexists.
  split; [by eapply FrameFacts.create_ok|]. cbn [fs].
  split; [by rewrite lookup_insert_eq|].
  split.
  - rewrite length_map. unfold bed.
    rewrite FrameFacts.rows_bed_length; rewrite ?length_map; done.
  - rewrite FrameFacts.lookup_map. unfold bed.
    erewrite FrameFacts.rows_bed_lookup; [|by rewrite length_map| |done..].
    2:{ rewrite FrameFacts.lookup_map, Hci. reflexivity. }
    cbn [fmap option_fmap option_map]. f_equal.
    unfold Frame.csv_line. cbn [map Str.join Frame.csv_field Table.chr_cell].
    assert (Hq' : Frame.needs_quote TAB (py "chr" ++ Frame.astype_str c) = false).
    { unfold Frame.needs_quote in *. rewrite existsb_app, Hq. reflexivity. }
    rewrite Hq'. by rewrite <- !app_assoc.
Qed.

(** The theorem on a sample input. *)
Lemma X20_interval_lines_witness :
  exists (lines : list str) (w' : world),
    Liftover.create_hg38_bed
      (Environment Sample.tools (fun _ => Some Sample2.loci_x)
         (fun _ _ => []) (fun _ => []) (py "/work"))
      (py "loci.tsv") (py "hg38.bed") Sample.start
    = (Ok (Some (py "hg38.bed")), w')
    /\ fs w' !! py "hg38.bed" = Some (File (concat lines))
    /\ length lines = 2%nat
    /\ lines !! 1%nat
       = Some (py "chr" ++ Frame.astype_str (StrCell (py "chrX")) ++ TAB :: Str.of_int 20
               ++ TAB :: Str.of_int 25 ++ [LF]).
Proof.
  apply (X20_interval_lines _ (py "loci.tsv") (py "hg38.bed") Sample.start
           (py "table") Sample2.loci_x
           [IntCell 7; StrCell (py "chrX")] [IntCell 10; IntCell 20] [IntCell 15; IntCell 25]);
    try (vm_compute; reflexivity).
  intros entries size. vm_compute. discriminate.
Defined.
